(** * A shallow embedding of [app.py]: scrape, extract, cache, summarise

    The program fetches product-listing pages as markdown, asks an LLM for
    a structured listing, caches both artifacts per URL on disk and writes
    one summary spreadsheet.  The development follows the source:

    - [Text]: the Python [str] and [re] operations the source uses
      ([re.sub] over a character class, [str.strip], the greedy search for
      [\{.*\}] with [re.DOTALL], POSIX [os.path.join]);
    - [Py]: Python values as [json.load] and [BaseModel.dict] produce them,
      exceptions with their [str()], subscripting, iteration and item
      assignment;
    - the pydantic models [ProductItem] and [Listings];
    - [Run]: a state-and-error monad over the file store, with the log of
      the external effects;
    - the functions of the source: [url_to_filename], [ensure_output_dir],
      [extract_with_llm], [scrape_markdown], [process_url], [run_batch];
    - the vocabulary of the properties, a concrete world ([Example]), and
      the properties themselves.

    Modelling decisions.
    - A Python [str] is a [string], one [ascii] per character: the model
      covers code points below 256.  The character-level functions of the
      source treat every character outside the named ASCII classes alike.
    - The libraries the source calls but does not define are parameters:
      the pure ones ([json.load], [json.dump] with [indent=4], the pydantic
      output parser, the DataFrame spreadsheet rendering) form a [Codec];
      the remote ones (the scraping backend, the chat model, the
      output-fixing parser, which calls the chat model again) form the
      [Services].
    - The file store is reliable: [open], [read] and [write] raise no
      [OSError].  Standard output and the progress bar are not modelled.
    - An exception is its class name and its [str()]; only [Exception]
      subclasses are raised.  Implicit exception chaining ([__context__])
      is not modelled. *)

From Stdlib Require Import Ascii String List Bool Arith Lia ZArith.
From stdpp Require Import base option list strings gmap.

Set Default Proof Using "Type".
Local Open Scope list_scope.

(* ===================================================================== *)
(** ** Text: the [str] and [re] operations of the source                  *)
(* ===================================================================== *)

Module Text.

Definition chars (s : string) : list ascii := String.list_ascii_of_string s.
Definition text (l : list ascii) : string := String.string_of_list_ascii l.

(** The class [[a-zA-Z0-9]]. *)
Definition is_alnum (c : ascii) : bool :=
  let n := nat_of_ascii c in
  ((48 <=? n) && (n <=? 57)) || ((65 <=? n) && (n <=? 90))
  || ((97 <=? n) && (n <=? 122)).

(** [c.isspace()] for the code points below 256. *)
Definition is_space (c : ascii) : bool :=
  let n := nat_of_ascii c in
  ((9 <=? n) && (n <=? 13)) || ((28 <=? n) && (n <=? 32))
  || (n =? 133) || (n =? 160).

(** [re.sub(cls, repl, s)] for a pattern [cls] that is one character
    class: every character of the class is a match of its own and is
    replaced by [repl]. *)
Definition re_sub_class (cls : ascii -> bool) (repl : list ascii)
                        (s : list ascii) : list ascii :=
  flat_map (fun c => if cls c then repl else [c]) s.

(** [s.lstrip(set)], [s.rstrip(set)] and [s.strip(set)]. *)
Fixpoint lstrip (set : ascii -> bool) (s : list ascii) : list ascii :=
  match s with
  | [] => []
  | c :: s' => if set c then lstrip set s' else s
  end.

Definition rstrip (set : ascii -> bool) (s : list ascii) : list ascii :=
  reverse (lstrip set (reverse s)).

Definition strip (set : ascii -> bool) (s : list ascii) : list ascii :=
  rstrip set (lstrip set s).

Definition is_char (a c : ascii) : bool := Ascii.eqb a c.

(** [re.search(r'\{.*\}', s, re.DOTALL)]: the leftmost match starts at
    the first opening brace; [.*] is greedy and, with [DOTALL], crosses
    newlines, so the match ends at the last closing brace after it.
    [None] when there is no such pair. *)
Fixpoint from_first (a : ascii) (s : list ascii) : option (list ascii) :=
  match s with
  | [] => None
  | c :: s' => if is_char a c then Some s else from_first a s'
  end.

(** The longest prefix of [s] that ends in [a]. *)
Fixpoint upto_last (a : ascii) (s : list ascii) : option (list ascii) :=
  match s with
  | [] => None
  | c :: s' =>
      match upto_last a s' with
      | Some p => Some (c :: p)
      | None => if is_char a c then Some [c] else None
      end
  end.

Definition search_brace_span (s : list ascii) : option (list ascii) :=
  match from_first "{"%char s with
  | Some (c :: rest) =>
      match upto_last "}"%char rest with
      | Some p => Some (c :: p)
      | None => None
      end
  | _ => None
  end.

(** [os.path.join(a, b)] on POSIX. *)
Definition ends_with_slash (a : string) : bool :=
  match reverse (chars a) with
  | c :: _ => is_char "/"%char c
  | [] => false
  end.

Definition starts_with_slash (b : string) : bool :=
  match b with
  | String c _ => is_char "/"%char c
  | EmptyString => false
  end.

Definition path_join (a b : string) : string :=
  if starts_with_slash b then b
  else match a with
       | EmptyString => b
       | _ => if ends_with_slash a then a +:+ b else a +:+ "/" +:+ b
       end.

End Text.

(* ===================================================================== *)
(** ** The filename normaliser                                            *)
(* ===================================================================== *)

Definition separator : ascii := "_"%char.

(** [re.sub(r'[^a-zA-Z0-9]', '_', url).strip('_')] *)
Definition url_to_filename (url : string) : string :=
  Text.text
    (Text.strip (Text.is_char separator)
       (Text.re_sub_class (fun c => negb (Text.is_alnum c)) [separator]
          (Text.chars url))).

(* ===================================================================== *)
(** ** Py: values, exceptions and the dynamic operations of the source    *)
(* ===================================================================== *)

Module Py.

(** The values [json.load] and [BaseModel.dict()] produce.  A [dict]
    keeps its keys in insertion order; its keys are [str]. *)
#[warnings="-register-all"]
Inductive value : Type :=
| VNone
| VBool (b : bool)
| VInt (z : Z)
| VFloat (lexeme : string)
| VStr (s : string)
| VList (l : list value)
| VDict (kvs : list (string * value)).

(** An exception: its class and what [str(e)] returns. *)
Record exn : Type := Exn { exn_class : string; exn_str : string }.

Inductive result (A : Type) : Type :=
| Ok (a : A)
| Raise (e : exn).
Arguments Ok {A} a.
Arguments Raise {A} e.

Definition type_name (v : value) : string :=
  match v with
  | VNone => "NoneType"
  | VBool _ => "bool"
  | VInt _ => "int"
  | VFloat _ => "float"
  | VStr _ => "str"
  | VList _ => "list"
  | VDict _ => "dict"
  end.

(** How an error message names the argument it rejects. *)
Definition argument_name (v : value) : string :=
  match v with
  | VNone => "None"
  | _ => type_name v
  end.

(** [repr(k)] for the keys the source uses, which are plain identifiers;
    [str(KeyError(k))] is [repr(k)]. *)
Definition repr_key (k : string) : string := "'" +:+ k +:+ "'".

Definition KeyError (k : string) : exn := Exn "KeyError" (repr_key k).
Definition TypeError (msg : string) : exn := Exn "TypeError" msg.
Definition ValueError (msg : string) : exn := Exn "ValueError" msg.
Definition AttributeError (msg : string) : exn := Exn "AttributeError" msg.

Fixpoint dict_get (k : string) (kvs : list (string * value)) : option value :=
  match kvs with
  | [] => None
  | (k', v) :: kvs' => if String.eqb k k' then Some v else dict_get k kvs'
  end.

(** [d[k] = x]: an existing key keeps its position, a new key goes last. *)
Fixpoint dict_set (k : string) (x : value) (kvs : list (string * value))
  : list (string * value) :=
  match kvs with
  | [] => [(k, x)]
  | (k', v) :: kvs' =>
      if String.eqb k k' then (k', x) :: kvs' else (k', v) :: dict_set k x kvs'
  end.

(** [v[k]] for a [str] key [k] (messages of CPython 3.11 and later). *)
Definition getitem (v : value) (k : string) : result value :=
  match v with
  | VDict kvs =>
      match dict_get k kvs with
      | Some x => Ok x
      | None => Raise (KeyError k)
      end
  | VList _ => Raise (TypeError "list indices must be integers or slices, not str")
  | VStr _ => Raise (TypeError "string indices must be integers, not 'str'")
  | _ => Raise (TypeError ("'" +:+ type_name v +:+ "' object is not subscriptable"))
  end.

(** [v[k] = x] for a [str] key [k]: the updated object. *)
Definition setitem (v : value) (k : string) (x : value) : result value :=
  match v with
  | VDict kvs => Ok (VDict (dict_set k x kvs))
  | VList _ => Raise (TypeError "list indices must be integers or slices, not str")
  | _ => Raise (TypeError ("'" +:+ type_name v
                           +:+ "' object does not support item assignment"))
  end.

(** [iter(v)]: a list yields its elements, a dict its keys, a str its
    characters. *)
Definition iterate (v : value) : result (list value) :=
  match v with
  | VList l => Ok l
  | VDict kvs => Ok (map (fun kv => VStr (fst kv)) kvs)
  | VStr s => Ok (map (fun c => VStr (String c EmptyString)) (Text.chars s))
  | _ => Raise (TypeError ("'" +:+ type_name v +:+ "' object is not iterable"))
  end.

End Py.
Export Py.

(* ===================================================================== *)
(** ** Schema: the pydantic models                                        *)
(* ===================================================================== *)

Record ProductItem : Type := {
  product_name : string;   (* alias "Product Description", default "n/a" *)
  product_link : string;   (* alias "Product Link", default "n/a" *)
  brand : string;          (* alias "Brand", default "n/a" *)
  Flavors : list string    (* alias "Flavors", default ["n/a"] *)
}.

Record Listings : Type := { items : list ProductItem }.

Definition ProductItem_default : ProductItem :=
  {| product_name := "n/a"; product_link := "n/a"; brand := "n/a";
     Flavors := ["n/a"] |}.

(** [item.dict()]: keyed by field name ([by_alias] is off by default). *)
Definition ProductItem_dict (p : ProductItem) : value :=
  VDict [("product_name", VStr (product_name p));
         ("product_link", VStr (product_link p));
         ("brand", VStr (brand p));
         ("Flavors", VList (map VStr (Flavors p)))].

(** [listing.dict()] *)
Definition Listings_dict (l : Listings) : value :=
  VDict [("items", VList (map ProductItem_dict (items l)))].

(* ===================================================================== *)
(** ** Run: file store, effect log, exceptions                            *)
(* ===================================================================== *)

Inductive message : Type :=
| SystemMessage (content : string)
| HumanMessage (content : string).

(** What the scraping backend hands back: the attributes of the object
    ([hasattr], [getattr]) and, when it is a [dict], its items. *)
Record scraped : Type := {
  attributes : list (string * value);
  mapping : option (list (string * value))
}.

Inductive event : Type :=
| Makedirs (path : string)
| ScrapeUrl (url : string)
| ChatInvoke (messages : list message)
| FixingParse (completion : string)
| ReadFile (path : string)
| OpenForWrite (path : string)
| WriteFile (path content : string)
| ToExcel (path : string) (data : value).

(** Pure library functions the source calls. *)
Record Codec : Type := {
  json_loads : string -> result value;        (* json.load(f), on the text of f *)
  json_dumps : value -> string;               (* json.dump(v, f, indent=4) *)
  parser_parse : string -> result Listings;   (* PydanticOutputParser.parse *)
  format_instructions : string;               (* parser.get_format_instructions() *)
  to_excel : value -> string                  (* DataFrame(data).to_excel(index=False) *)
}.

(** Remote collaborators. *)
Record Services : Type := {
  scrape_url : string -> result scraped;         (* FirecrawlApp().scrape_url *)
  chat_invoke : list message -> result string;   (* chat.invoke(messages).content *)
  fixing_parse : string -> result Listings       (* OutputFixingParser.parse *)
}.

Module Run.

Abbreviation store := (gmap string string).

(** A computation reads and updates the file store, logs its external
    effects in order, and returns or raises. *)
Definition M (A : Type) : Type := store -> result A * store * list event.

Definition ret {A} (a : A) : M A := fun fs => (Ok a, fs, []).
Definition raise {A} (e : exn) : M A := fun fs => (Raise e, fs, []).

Definition bind {A B} (m : M A) (k : A -> M B) : M B :=
  fun fs =>
    match m fs with
    | (Ok a, fs1, t1) =>
        match k a fs1 with
        | (r, fs2, t2) => (r, fs2, t1 ++ t2)
        end
    | (Raise e, fs1, t1) => (Raise e, fs1, t1)
    end.

(** [try: m  except Exception as e: h e] *)
Definition try_except {A} (m : M A) (h : exn -> M A) : M A :=
  fun fs =>
    match m fs with
    | (Ok a, fs1, t1) => (Ok a, fs1, t1)
    | (Raise e, fs1, t1) =>
        match h e fs1 with
        | (r, fs2, t2) => (r, fs2, t1 ++ t2)
        end
    end.

Definition lift {A} (r : result A) : M A := fun fs => (r, fs, []).
Definition emit (ev : event) : M unit := fun fs => (Ok tt, fs, [ev]).

(** [os.path.exists(path)] *)
Definition path_exists (path : string) : M bool :=
  fun fs => (Ok (bool_decide (is_Some (fs !! path))), fs, []).

(** [with open(path, 'r') as f: f.read()], on a path that exists. *)
Definition read_text (path : string) : M string :=
  fun fs =>
    match fs !! path with
    | Some s => (Ok s, fs, [ReadFile path])
    | None => (Raise (Exn "FileNotFoundError"
                        ("[Errno 2] No such file or directory: "
                         +:+ repr_key path)), fs, [])
    end.

(** [open(path, 'w')] creates the file or truncates it. *)
Definition open_w (path : string) : M unit :=
  fun fs => (Ok tt, <[path := EmptyString]> fs, [OpenForWrite path]).

(** [f.write(s)] followed by the close of the [with] block. *)
Definition write_text (path s : string) : M unit :=
  fun fs => (Ok tt, <[path := s]> fs, [WriteFile path s]).

(** [for x in xs: body x] collecting what the bodies return. *)
Fixpoint for_each {A B} (body : A -> M B) (xs : list A) : M (list B) :=
  match xs with
  | [] => ret []
  | x :: xs' =>
      bind (body x) (fun y => bind (for_each body xs') (fun ys => ret (y :: ys)))
  end.

End Run.

Notation "x <- m ;; k" := (Run.bind m (fun x => k))
  (at level 100, m at next level, right associativity).
Notation "m ;;; k" := (Run.bind m (fun _ => k))
  (at level 100, right associativity).

(* ===================================================================== *)
(** ** App: the functions of [app.py]                                     *)
(* ===================================================================== *)

Import Run.

Definition nl : string := String "010"%char EmptyString.

Definition system_prompt : string :=
  "You are a text extraction assistant. Extract structured data from messy real text for all the listed products and return only valid JSON.".

Definition no_group : exn :=
  AttributeError "'NoneType' object has no attribute 'group'".

Definition no_markdown : exn :=
  ValueError "No markdown found in scraped content.".

(** The f-string of the final [raise] in [extract_with_llm]. *)
Definition extraction_message (final_err : exn) (raw_output : string) : string :=
  "Failed to extract ListingInfo. Final error: " +:+ exn_str final_err
  +:+ nl +:+ "Raw Output:" +:+ nl +:+ raw_output.

(** The placeholder row of the [except] branch of [process_url]. *)
Definition error_row (url : string) (e : exn) : value :=
  VDict [("url", VStr url);
         ("product_description", VStr "ERROR");
         ("product_link", VStr (exn_str e))].

(** [response.content.strip()] *)
Definition strip_whitespace (s : string) : string :=
  Text.text (Text.strip Text.is_space (Text.chars s)).

Section App.

Variable lib : Codec.
Variable svc : Services.

Definition ensure_output_dir (path : string) : M unit := emit (Makedirs path).

Definition build_messages (data : string) : list message :=
  [SystemMessage system_prompt;
   HumanMessage
     ("Extract the fields from the below given text.:" +:+ nl +:+ nl +:+ data
      +:+ nl +:+ nl +:+ "Return JSON only, without extra information.:" +:+ nl
      +:+ format_instructions lib)].

Definition invoke_chat (messages : list message) : M string :=
  emit (ChatInvoke messages) ;;; lift (chat_invoke svc messages).

Definition invoke_fixing_parser (completion : string) : M Listings :=
  emit (FixingParse completion) ;;; lift (fixing_parse svc completion).

(** The body of the outer [try] of [extract_with_llm]. *)
Definition first_parse (raw_output : string) : M value :=
  match Text.search_brace_span (Text.chars raw_output) with
  | None => raise no_group
  | Some json_str =>
      parsed <- lift (parser_parse lib (Text.text json_str)) ;;
      ret (Listings_dict parsed)
  end.

(** The body of the inner [try] and its handler. *)
Definition repair_parse (raw_output : string) : M value :=
  try_except
    (fixed <- invoke_fixing_parser raw_output ;; ret (Listings_dict fixed))
    (fun final_err => raise (ValueError (extraction_message final_err raw_output))).

Definition extract_with_llm (data : string) : M value :=
  content <- invoke_chat (build_messages data) ;;
  let raw_output := strip_whitespace content in
  try_except (first_parse raw_output) (fun e => repair_parse raw_output).

Definition scrape_markdown (url : string) : M value :=
  scraped_data <- (emit (ScrapeUrl url) ;;; lift (scrape_url svc url)) ;;
  match dict_get "markdown" (attributes scraped_data) with
  | Some markdown => ret markdown
  | None =>
      match mapping scraped_data with
      | Some d =>
          match dict_get "markdown" d with
          | Some markdown => ret markdown
          | None => raise no_markdown
          end
      | None => raise no_markdown
      end
  end.

(** [for item in structured_data["items"]: item["url"] = url].  The item
    dicts are updated in place, so the list under ["items"] holds the
    stamped dicts afterwards; the elements of any other iterable are
    [str] objects, which reject the assignment. *)
Definition stamp_items (url : string) (structured_data : value) : M value :=
  its <- lift (getitem structured_data "items") ;;
  seq <- lift (iterate its) ;;
  stamped <- for_each (fun item => lift (setitem item "url" (VStr url))) seq ;;
  match its with
  | VList _ => lift (setitem structured_data "items" (VList stamped))
  | _ => ret structured_data
  end.

(** [pd.DataFrame(data).to_excel(path, index=False)] *)
Definition dataframe_to_excel (path : string) (data : value) : M unit :=
  fun fs => (Ok tt, <[path := to_excel lib data]> fs, [ToExcel path data]).

(** One element of the comprehension that builds [enriched_data]. *)
Definition enrich (item : value) : M value :=
  u <- lift (getitem item "url") ;;
  d <- lift (getitem item "product_description") ;;
  l <- lift (getitem item "product_link") ;;
  ret (VDict [("url", u); ("product_description", d); ("product_link", l)]).

(** "Load or scrape raw markdowns" *)
Definition load_or_scrape (url raw_path : string) : M string :=
  cached <- path_exists raw_path ;;
  if (cached : bool) then read_text raw_path
  else
    raw_data <- scrape_markdown url ;;
    open_w raw_path ;;;
    match raw_data with
    | VStr s => write_text raw_path s ;;; ret s
    | _ => raise (TypeError ("write() argument must be str, not "
                             +:+ argument_name raw_data))
    end.

(** "Load or extract structured data" *)
Definition load_or_extract (url json_path excel_path raw_data : string) : M value :=
  cached <- path_exists json_path ;;
  if (cached : bool) then
    txt <- read_text json_path ;; lift (json_loads lib txt)
  else
    structured_data <- extract_with_llm raw_data ;;
    structured_data <- stamp_items url structured_data ;;
    open_w json_path ;;;
    write_text json_path (json_dumps lib structured_data) ;;;
    its <- lift (getitem structured_data "items") ;;
    dataframe_to_excel excel_path its ;;;
    ret structured_data.

(** "Build output with url, product_description, and product_link" *)
Definition build_output (structured_data : value) : M (list value) :=
  its <- lift (getitem structured_data "items") ;;
  seq <- lift (iterate its) ;;
  for_each enrich seq.

Definition raw_path_of (url output_folder : string) : string :=
  Text.path_join output_folder (url_to_filename url +:+ ".md").
Definition json_path_of (url output_folder : string) : string :=
  Text.path_join output_folder (url_to_filename url +:+ ".json").
Definition excel_path_of (url output_folder : string) : string :=
  Text.path_join output_folder (url_to_filename url +:+ ".xlsx").

(** The body of the [try] of [process_url]. *)
Definition process_url_try (url output_folder : string) : M (list value) :=
  raw_data <- load_or_scrape url (raw_path_of url output_folder) ;;
  structured_data <- load_or_extract url (json_path_of url output_folder)
                       (excel_path_of url output_folder) raw_data ;;
  build_output structured_data.

Definition process_url (url output_folder : string) : M (list value) :=
  try_except (process_url_try url output_folder)
             (fun e => ret [error_row url e]).

(** The [for] loop of [run_batch], [all_results] being the accumulator
    that [extend] grows. *)
Fixpoint batch_loop (url_list : list string) (output_folder : string)
                    (all_results : list value) : M (list value) :=
  match url_list with
  | [] => ret all_results
  | url :: rest =>
      result <- process_url url output_folder ;;
      batch_loop rest output_folder (all_results ++ result)
  end.

Definition run_batch (url_list : list string)
                     (output_folder summary_path : string) : M unit :=
  ensure_output_dir output_folder ;;;
  all_results <- batch_loop url_list output_folder [] ;;
  dataframe_to_excel summary_path (VList all_results).

End App.

Definition default_output_folder : string := "output".
Definition default_summary_path : string := "output/summary.xlsx".

(* ===================================================================== *)
(** ** Vocabulary of the properties                                       *)
(* ===================================================================== *)

(** *** The filename normaliser *)

Definition filename_char (c : ascii) : bool :=
  Text.is_alnum c || Text.is_char separator c.

Definition trimmed (s : list ascii) : Prop :=
  head s ≠ Some separator ∧ last s ≠ Some separator.

(** One separator for each character outside [[a-zA-Z0-9]]. *)
Definition replace_one (c : ascii) : ascii :=
  if Text.is_alnum c then c else separator.

(** The normal form in which every maximal run of characters outside
    [[a-zA-Z0-9]] gives a single separator, trimmed at both ends. *)
Fixpoint collapse_runs (s : list ascii) : list ascii :=
  match s with
  | [] => []
  | c :: s' =>
      if Text.is_alnum c then c :: collapse_runs s'
      else match s' with
           | c' :: _ =>
               if Text.is_alnum c' then separator :: collapse_runs s'
               else collapse_runs s'
           | [] => [separator]
           end
  end.

Definition collapsed_filename (url : string) : string :=
  Text.text (Text.strip (Text.is_char separator) (collapse_runs (Text.chars url))).

Definition collapsing_normal_form (url : string) : Prop :=
  Forall (fun c => filename_char c = true) (Text.chars (url_to_filename url))
  ∧ trimmed (Text.chars (url_to_filename url))
  ∧ url_to_filename url = collapsed_filename url.

(** *** Text carried by an error message *)




(** *** The scraping backend's result *)

Definition lacks_markdown (r : scraped) : Prop :=
  dict_get "markdown" (attributes r) = None
  ∧ ∀ d, mapping r = Some d → dict_get "markdown" d = None.

Definition provides_markdown (r : scraped) (v : value) : Prop :=
  dict_get "markdown" (attributes r) = Some v
  ∨ (dict_get "markdown" (attributes r) = None
     ∧ ∃ d, mapping r = Some d ∧ dict_get "markdown" d = Some v).

(** *** Rows and stages of the per-URL pipeline *)

(** [row] is the EnrichedRecord of [item]. *)
Definition enriched_from (item row : value) : Prop :=
  ∃ u d l,
    getitem item "url" = Ok u
    ∧ getitem item "product_description" = Ok d
    ∧ getitem item "product_link" = Ok l
    ∧ row = VDict [("url", u); ("product_description", d); ("product_link", l)].

Definition is_llm_call (ev : event) : bool :=
  match ev with
  | ChatInvoke _ | FixingParse _ => true
  | _ => false
  end.

Definition is_fetch (ev : event) : bool :=
  match ev with
  | ScrapeUrl _ => true
  | _ => false
  end.

Section Stages.

Variable lib : Codec.
Variable svc : Services.
Variable url output_folder : string.

(** The stage of the [try] block an exception comes from, with the store
    and the log at the moment it is raised. *)
Inductive raised_in_stage (fs : Run.store) : exn → Run.store → list event → Prop :=
| raised_in_raw_fetch e fs1 t1 :
    load_or_scrape svc url (raw_path_of url output_folder) fs = (Raise e, fs1, t1) →
    raised_in_stage fs e fs1 t1
| raised_in_extract raw_data fs1 t1 e fs2 t2 :
    load_or_scrape svc url (raw_path_of url output_folder) fs = (Ok raw_data, fs1, t1) →
    load_or_extract lib svc url (json_path_of url output_folder)
      (excel_path_of url output_folder) raw_data fs1 = (Raise e, fs2, t2) →
    raised_in_stage fs e fs2 (t1 ++ t2)
| raised_in_reduce raw_data fs1 t1 structured_data fs2 t2 e fs3 t3 :
    load_or_scrape svc url (raw_path_of url output_folder) fs = (Ok raw_data, fs1, t1) →
    load_or_extract lib svc url (json_path_of url output_folder)
      (excel_path_of url output_folder) raw_data fs1 = (Ok structured_data, fs2, t2) →
    build_output structured_data fs2 = (Raise e, fs3, t3) →
    raised_in_stage fs e fs3 (t1 ++ t2 ++ t3).

(** The item sequence of the Listing the Extract stage hands to Reduce. *)
Definition listing_items (fs : Run.store) (seq : list value) : Prop :=
  ∃ raw_data fs1 t1 structured_data fs2 t2 its,
    load_or_scrape svc url (raw_path_of url output_folder) fs = (Ok raw_data, fs1, t1)
    ∧ load_or_extract lib svc url (json_path_of url output_folder)
        (excel_path_of url output_folder) raw_data fs1 = (Ok structured_data, fs2, t2)
    ∧ getitem structured_data "items" = Ok its
    ∧ iterate its = Ok seq.

End Stages.

(** The item dict after [item["url"] = url]. *)
Definition stamped_item (url : string) (p : ProductItem) : value :=
  VDict [("product_name", VStr (product_name p));
         ("product_link", VStr (product_link p));
         ("brand", VStr (brand p));
         ("Flavors", VList (map VStr (Flavors p)));
         ("url", VStr url)].

(** *** Pure computations *)

(** A computation built from [lift] and [ret] alone touches neither the
    store nor the log, and its outcome does not depend on the store. *)
Definition effect_free {A} (m : M A) : Prop :=
  ∃ r, ∀ fs, m fs = (r, fs, []).

(** *** The batch *)

(** [url_list] handled one URL after the other from store [fs]: the row
    sequence of each URL, the store and the log at the end. *)
Inductive sequentially (lib : Codec) (svc : Services) (output_folder : string)
  : list string → Run.store → list (list value) → Run.store → list event → Prop :=
| sequentially_nil fs : sequentially lib svc output_folder [] fs [] fs []
| sequentially_cons url rest fs rows fs1 t1 rowss fs2 t2 :
    process_url lib svc url output_folder fs = (Ok rows, fs1, t1) →
    sequentially lib svc output_folder rest fs1 rowss fs2 t2 →
    sequentially lib svc output_folder (url :: rest) fs (rows :: rowss) fs2 (t1 ++ t2).

(* ===================================================================== *)
(** ** A concrete world                                                   *)
(* ===================================================================== *)

Module Example.

Definition dq : string := String "034"%char EmptyString.

Definition join (sep : string) (parts : list string) : string :=
  match parts with
  | [] => EmptyString
  | p :: ps => fold_left (fun acc q => acc +:+ sep +:+ q) ps p
  end.

(** A stand-in for [json.dump]: compact, no escapes, integers omitted. *)
Fixpoint dumps (v : value) : string :=
  match v with
  | VNone => "null"
  | VBool b => if b then "true" else "false"
  | VInt _ => "0"
  | VFloat lexeme => lexeme
  | VStr s => dq +:+ s +:+ dq
  | VList l => "[" +:+ join ", " (map dumps l) +:+ "]"
  | VDict kvs =>
      "{" +:+ join ", "
                ((fix members (kvs : list (string * value)) : list string :=
                    match kvs with
                    | [] => []
                    | (k, x) :: kvs' => (dq +:+ k +:+ dq +:+ ": " +:+ dumps x) :: members kvs'
                    end) kvs)
      +:+ "}"
  end.

Definition lookup_table {A} (k : string) (t : list (string * A)) : option A :=
  snd <$> List.find (fun kv => String.eqb k (fst kv)) t.

Definition page_a : string := "https://a.com".
Definition page_b : string := "https://b.com".

Definition two_items : Listings :=
  {| items := [ {| product_name := "Mint Gum";
                   product_link := "https://a.com/mint";
                   brand := "Acme"; Flavors := ["mint"] |};
                {| product_name := "Cola Drops";
                   product_link := "https://a.com/cola";
                   brand := "n/a"; Flavors := ["n/a"] |} ] |}.

Definition no_items : Listings := {| items := [] |}.

(** A structured-data artifact whose items carry the keys the Reduce
    stage reads. *)
Definition cached_listing : value :=
  VDict [("items",
          VList [VDict [("product_description", VStr "Mint Gum");
                        ("product_link", VStr "https://a.com/mint");
                        ("url", VStr page_a)];
                 VDict [("product_description", VStr "Cola Drops");
                        ("product_link", VStr "https://a.com/cola");
                        ("url", VStr page_a)]])].

Definition lib : Codec :=
  {| json_loads := fun s =>
       match lookup_table s [(dumps cached_listing, cached_listing)] with
       | Some v => Ok v
       | None => Raise (Exn "JSONDecodeError" "Expecting value: line 1 column 1 (char 0)")
       end;
     json_dumps := dumps;
     parser_parse := fun s =>
       match lookup_table s [(dumps (Listings_dict two_items), two_items);
                             (dumps (Listings_dict no_items), no_items)] with
       | Some l => Ok l
       | None => Raise (Exn "OutputParserException"
                          ("Failed to parse Listings from completion " +:+ s))
       end;
     format_instructions := "The output should be formatted as a JSON instance.";
     to_excel := dumps |}.

Definition shop_page : scraped :=
  {| attributes := [("markdown", VStr "# Shop A")]; mapping := None |}.

Definition refused : exn := Exn "ConnectionError" "connection refused".
Definition unfixable : exn := Exn "OutputParserException" "still not JSON".

Definition scrape_a_only (u : string) : result scraped :=
  if String.eqb u page_a then Ok shop_page else Raise refused.

(** The chat model answers with the two-record listing wrapped in prose. *)
Definition svc : Services :=
  {| scrape_url := scrape_a_only;
     chat_invoke := fun _ =>
       Ok ("Here you go: " +:+ dumps (Listings_dict two_items) +:+ nl);
     fixing_parse := fun _ => Raise unfixable |}.


Definition garbled_answer : string := "Sorry, I cannot help with that.".

(** The chat model answers without any JSON and the repair fails too. *)
Definition svc_garbled : Services :=
  {| scrape_url := scrape_a_only;
     chat_invoke := fun _ => Ok garbled_answer;
     fixing_parse := fun _ => Raise unfixable |}.

(** The chat model puts a brace-delimited remark before the object. *)
Definition stray_answer : string :=
  "{note} " +:+ dumps (Listings_dict two_items).

Definition svc_stray : Services :=
  {| scrape_url := scrape_a_only;
     chat_invoke := fun _ => Ok stray_answer;
     fixing_parse := fun _ => Raise unfixable |}.

(** Every remote call fails. *)
Definition svc_down : Services :=
  {| scrape_url := fun _ => Raise refused;
     chat_invoke := fun _ => Raise refused;
     fixing_parse := fun _ => Raise refused |}.


(** The error [extract_with_llm] raises under [svc_garbled]. *)
Definition garbled_error : exn :=
  ValueError (extraction_message unfixable garbled_answer).

(** A backend that answers with a plain mapping. *)
Definition svc_mapping : Services :=
  {| scrape_url := fun _ =>
       Ok {| attributes := []; mapping := Some [("markdown", VStr "# Shop M")] |};
     chat_invoke := fun _ => Raise refused;
     fixing_parse := fun _ => Raise refused |}.

Definition json_only_store : Run.store :=
  {[ "output/https___a_com.json" := dumps cached_listing ]}.

Definition cached_store : Run.store :=
  <[ "output/https___a_com.md" := "# Shop A" ]> json_only_store.

End Example.

(* ===================================================================== *)
(** ** Further vocabulary: paths, costs, frames                           *)
(* ===================================================================== *)

(** What [os.path.join] puts before a file name that is not absolute. *)
Definition folder_prefix (output_folder : string) : string :=
  match output_folder with
  | EmptyString => EmptyString
  | _ =>
      if Text.ends_with_slash output_folder then output_folder
      else output_folder +:+ "/"
  end.

(** The three artifacts [process_url] keeps for a URL. *)
Definition artifact_paths (url output_folder : string) : list string :=
  [raw_path_of url output_folder; json_path_of url output_folder;
   excel_path_of url output_folder].

(** Two characters [url_to_filename] does not tell apart. *)
Definition same_class (a b : ascii) : Prop :=
  a = b ∨ (Text.is_alnum a = false ∧ Text.is_alnum b = false).

(** Calls of the scraping backend and of the model in a log. *)
Definition fetches (tr : list event) : nat := length (List.filter is_fetch tr).
Definition llm_calls (tr : list event) : nat := length (List.filter is_llm_call tr).

(** [m] calls the scraping backend at most [f] times and the model at
    most [l] times, from any store and whatever the outcome. *)
Definition cost_le {A} (f l : nat) (m : M A) : Prop :=
  ∀ fs r fs' tr, m fs = (r, fs', tr) → fetches tr ≤ f ∧ llm_calls tr ≤ l.

(** [m] changes the store at paths in [P] only, and removes no file. *)
Definition frames {A} (P : string → Prop) (m : M A) : Prop :=
  ∀ fs r fs' tr, m fs = (r, fs', tr) →
    (∀ q, ¬ P q → fs' !! q = fs !! q)
    ∧ (∀ q, is_Some (fs !! q) → is_Some (fs' !! q)).

(** A row with exactly the three columns of the summary, in order. *)
Definition summary_row (row : value) : Prop :=
  ∃ u d l,
    row = VDict [("url", u); ("product_description", d); ("product_link", l)].

(** The paths a batch may write: the summary and the artifacts of its
    URLs. *)
Definition batch_paths (url_list : list string)
    (output_folder summary_path : string) (q : string) : Prop :=
  q = summary_path ∨ ∃ url, url ∈ url_list ∧ q ∈ artifact_paths url output_folder.

(** The entry point: [run_batch(urls)] with the default folder and
    summary path. *)
Definition urls : list string :=
  ["https://www.avtxwholesale.com/";
   "https://www.shopaairhus.com/";
   "https://mrawholesale.com/"].

Definition main (lib : Codec) (svc : Services) : M unit :=
  run_batch lib svc urls default_output_folder default_summary_path.

(** Further concrete worlds. *)
Module Scenario.

(** The first parse fails and the output-fixing parser succeeds. *)
Definition svc_repaired : Services :=
  {| scrape_url := Example.scrape_a_only;
     chat_invoke := fun _ => Ok Example.garbled_answer;
     fixing_parse := fun _ => Ok Example.two_items |}.

(** The backend returns an object whose [markdown] attribute is [None]. *)
Definition blank_page : scraped :=
  {| attributes := [("markdown", VNone)]; mapping := None |}.

Definition svc_blank : Services :=
  {| scrape_url := fun _ => Ok blank_page;
     chat_invoke := fun _ => Raise Example.refused;
     fixing_parse := fun _ => Raise Example.refused |}.

(** The Listing of [Example.two_items] as [process_url] persists it. *)
Definition stamped_listing : value :=
  VDict [("items", VList (map (stamped_item Example.page_a)
                              (items Example.two_items)))].

(** A codec whose [json_loads] reads back what [json_dumps] wrote for
    the two listings of the examples. *)
Definition lib_round_trip : Codec :=
  {| json_loads := fun s =>
       match Example.lookup_table s
               [(Example.dumps Example.cached_listing, Example.cached_listing);
                (Example.dumps stamped_listing, stamped_listing)] with
       | Some v => Ok v
       | None => Raise (Exn "JSONDecodeError" "Expecting value: line 1 column 1 (char 0)")
       end;
     json_dumps := Example.dumps;
     parser_parse := parser_parse Example.lib;
     format_instructions := format_instructions Example.lib;
     to_excel := Example.dumps |}.

(** A cached Listing whose second item lacks [product_description]. *)
Definition good_item (name : string) : value :=
  VDict [("product_description", VStr name);
         ("product_link", VStr "https://a.com/p");
         ("url", VStr Example.page_a);
         ("brand", VStr "Acme")].

Definition bad_item : value :=
  VDict [("product_name", VStr "Cola Drops");
         ("product_link", VStr "https://a.com/cola");
         ("url", VStr Example.page_a)].

Definition mixed_listing : value :=
  VDict [("items", VList [good_item "Mint Gum"; bad_item; good_item "Lemon Ice"])].

Definition good_listing : value :=
  VDict [("items", VList [good_item "Mint Gum"; good_item "Lemon Ice"])].

Definition lib_with (cached : value) : Codec :=
  {| json_loads := fun s =>
       if String.eqb s "cached" then Ok cached
       else Raise (Exn "JSONDecodeError" "Expecting value: line 1 column 1 (char 0)");
     json_dumps := Example.dumps;
     parser_parse := parser_parse Example.lib;
     format_instructions := format_instructions Example.lib;
     to_excel := Example.dumps |}.

(** A store holding both artifacts of [Example.page_a], the structured
    one with the text [cached]. *)
Definition store_with_cache : Run.store :=
  {[ "output/https___a_com.md" := "# Shop A";
     "output/https___a_com.json" := "cached" ]}.

Definition corrupt_store : Run.store :=
  {[ "output/https___a_com.md" := "# Shop A";
     "output/https___a_com.json" := "{not json" ]}.

End Scenario.

(* ===================================================================== *)
(** ** Facts about [Text]                                                 *)
(* ===================================================================== *)

Lemma chars_text (l : list ascii) : Text.chars (Text.text l) = l.
Proof. apply String.list_ascii_of_string_of_list_ascii. Qed.

Lemma text_chars (s : string) : Text.text (Text.chars s) = s.
Proof. apply String.string_of_list_ascii_of_string. Qed.

Lemma chars_app (a b : string) :
  Text.chars (a +:+ b) = Text.chars a ++ Text.chars b.
Proof.
  induction a as [|c a IH]; [reflexivity |].
  change (Text.chars (String c a +:+ b)) with (c :: Text.chars (a +:+ b)).
  rewrite IH. reflexivity.
Qed.

Lemma is_char_true (a c : ascii) : Text.is_char a c = true ↔ a = c.
Proof. apply Ascii.eqb_eq. Qed.

Lemma is_char_false (a c : ascii) : Text.is_char a c = false ↔ a ≠ c.
Proof. apply Ascii.eqb_neq. Qed.

Section Strip.

Variable set : ascii → bool.

Lemma lstrip_split (s : list ascii) :
  ∃ pre, s = pre ++ Text.lstrip set s ∧ Forall (λ c, set c = true) pre.
Proof.
  induction s as [|c s (pre & Hs & Hpre)]; [by exists [] |].
  simpl. destruct (set c) eqn:Hc.
  - exists (c :: pre). split; [by rewrite Hs at 1 | by constructor].
  - by exists [].
Qed.

Lemma lstrip_head (s : list ascii) (c : ascii) :
  head (Text.lstrip set s) = Some c → set c = false.
Proof.
  induction s as [|a s IH]; [done |].
  simpl. destruct (set a) eqn:Ha; [done |].
  simpl. by intros [= <-].
Qed.

Lemma rstrip_split (s : list ascii) :
  ∃ suf, s = Text.rstrip set s ++ suf ∧ Forall (λ c, set c = true) suf.
Proof.
  destruct (lstrip_split (reverse s)) as (pre & Hs & Hpre).
  exists (reverse pre). split; [| by apply Forall_reverse].
  unfold Text.rstrip. rewrite <- reverse_app, <- Hs.
  by rewrite reverse_involutive.
Qed.

Lemma rstrip_last (s : list ascii) (c : ascii) :
  last (Text.rstrip set s) = Some c → set c = false.
Proof. unfold Text.rstrip. rewrite last_reverse. apply lstrip_head. Qed.

Lemma strip_split (s : list ascii) :
  ∃ pre suf,
    s = pre ++ Text.strip set s ++ suf
    ∧ Forall (λ c, set c = true) pre ∧ Forall (λ c, set c = true) suf.
Proof.
  destruct (lstrip_split s) as (pre & Hs & Hpre).
  destruct (rstrip_split (Text.lstrip set s)) as (suf & Hl & Hsuf).
  exists pre, suf. split_and!; [| done | done].
  unfold Text.strip. by rewrite <- Hl.
Qed.

Lemma strip_head (s : list ascii) (c : ascii) :
  head (Text.strip set s) = Some c → set c = false.
Proof.
  intros Hc. apply (lstrip_head s).
  destruct (rstrip_split (Text.lstrip set s)) as (suf & Hl & _).
  rewrite Hl. apply head_app_Some. by left.
Qed.

Lemma strip_last (s : list ascii) (c : ascii) :
  last (Text.strip set s) = Some c → set c = false.
Proof. apply rstrip_last. Qed.



End Strip.

Lemma re_sub_class_single (cls : ascii → bool) (r : ascii) (s : list ascii) :
  Text.re_sub_class cls [r] s = map (λ c, if cls c then r else c) s.
Proof.
  unfold Text.re_sub_class. induction s as [|c s IH]; [done |].
  simpl. rewrite IH. by destruct (cls c).
Qed.

(* ===================================================================== *)
(** ** The filename normaliser: properties                                *)
(* ===================================================================== *)

Lemma url_to_filename_chars (url : string) :
  Text.chars (url_to_filename url)
  = Text.strip (Text.is_char separator) (map replace_one (Text.chars url)).
Proof.
  unfold url_to_filename. rewrite chars_text, re_sub_class_single.
  f_equal. apply map_ext. intros c. unfold replace_one.
  by destruct (Text.is_alnum c).
Qed.

Lemma replace_one_filename_char (c : ascii) : filename_char (replace_one c) = true.
Proof.
  unfold replace_one, filename_char.
  destruct (Text.is_alnum c) eqn:Hc; [by rewrite Hc | done].
Qed.

Example url_to_filename_spec_url :
  url_to_filename "https://a.com/x?y=1" = "https___a_com_x_y_1".
Proof. reflexivity. Qed.

Example url_to_filename_entry_point :
  map url_to_filename
      ["https://www.avtxwholesale.com/"; "https://www.shopaairhus.com/";
       "https://mrawholesale.com/"]
  = ["https___www_avtxwholesale_com"; "https___www_shopaairhus_com";
     "https___mrawholesale_com"].
Proof. reflexivity. Qed.

(** C4, as stated, fails: the pattern has no repetition, so a run of two
    characters outside [[a-zA-Z0-9]] gives two separators, not one. *)
Lemma url_to_filename_keeps_run_length : ¬ collapsing_normal_form "a//b".
Proof.
  intros (_ & _ & H). vm_compute in H. discriminate H.
Qed.

(** C4, amended: the result of [url_to_filename] holds only characters of
    [[a-zA-Z0-9]] and the separator, neither starts nor ends with the
    separator, and is the input with every character outside
    [[a-zA-Z0-9]] replaced by one separator of its own, minus the
    separators at the two ends. *)
Theorem url_to_filename_one_separator_each (url : string) :
  Forall (λ c, filename_char c = true) (Text.chars (url_to_filename url))
  ∧ trimmed (Text.chars (url_to_filename url))
  ∧ ∃ pre suf,
      Forall (eq separator) pre ∧ Forall (eq separator) suf
      ∧ map replace_one (Text.chars url)
        = pre ++ Text.chars (url_to_filename url) ++ suf.
Proof.
  rewrite url_to_filename_chars.
  set (body := map replace_one (Text.chars url)).
  destruct (strip_split (Text.is_char separator) body)
    as (pre & suf & Hbody & Hpre & Hsuf).
  assert (Hall : Forall (λ c, filename_char c = true) body).
  { apply Forall_forall. intros c Hc. apply list_elem_of_fmap in Hc.
    destruct Hc as (c0 & -> & _). apply replace_one_filename_char. }
  split_and!.
  - rewrite Hbody in Hall. by apply Forall_app in Hall as [_ [? _]%Forall_app].
  - split; intros Hc.
    + apply strip_head in Hc. by rewrite (proj2 (is_char_true _ _)) in Hc.
    + apply strip_last in Hc. by rewrite (proj2 (is_char_true _ _)) in Hc.
  - exists pre, suf. split_and!; [| | done].
    + eapply Forall_impl; [exact Hpre |]. intros c. apply is_char_true.
    + eapply Forall_impl; [exact Hsuf |]. intros c. apply is_char_true.
Qed.

(* ===================================================================== *)
(** ** Facts about [Run]                                                  *)
(* ===================================================================== *)

Section RunFacts.

Context {A B : Type}.
Implicit Types (m : M A) (k : A → M B) (fs : Run.store).

Lemma bind_Ok m k fs a fs1 t1 :
  m fs = (Ok a, fs1, t1) →
  Run.bind m k fs = (let '(r, fs2, t2) := k a fs1 in (r, fs2, t1 ++ t2)).
Proof. intros H. unfold Run.bind. by rewrite H. Qed.

Lemma bind_Raise m k fs e fs1 t1 :
  m fs = (Raise e, fs1, t1) → Run.bind m k fs = (Raise e, fs1, t1).
Proof. intros H. unfold Run.bind. by rewrite H. Qed.

Lemma bind_inv m k fs (r : result B) fs2 t :
  Run.bind m k fs = (r, fs2, t) →
  (∃ a fs1 t1 t2, m fs = (Ok a, fs1, t1) ∧ k a fs1 = (r, fs2, t2) ∧ t = t1 ++ t2)
  ∨ (∃ e, m fs = (Raise e, fs2, t) ∧ r = Raise e).
Proof.
  unfold Run.bind. destruct (m fs) as [[[a|e] fs1] t1].
  - destruct (k a fs1) as [[r' fs2'] t2] eqn:Hk. intros [= <- <- <-].
    left. by exists a, fs1, t1, t2.
  - intros [= <- <- <-]. right. by exists e.
Qed.

Lemma try_except_Ok (m : M A) (h : exn → M A) fs a fs1 t1 :
  m fs = (Ok a, fs1, t1) → try_except m h fs = (Ok a, fs1, t1).
Proof. intros H. unfold try_except. by rewrite H. Qed.

Lemma try_except_Raise (m : M A) (h : exn → M A) fs e fs1 t1 :
  m fs = (Raise e, fs1, t1) →
  try_except m h fs = (let '(r, fs2, t2) := h e fs1 in (r, fs2, t1 ++ t2)).
Proof. intros H. unfold try_except. by rewrite H. Qed.

End RunFacts.

Lemma effect_free_lift {A} (r : result A) : effect_free (lift r).
Proof. by exists r. Qed.

Lemma effect_free_ret {A} (a : A) : effect_free (ret a).
Proof. by exists (Ok a). Qed.

Lemma effect_free_raise {A} (e : exn) : effect_free (@raise A e).
Proof. by exists (Raise e). Qed.

Lemma effect_free_bind {A B} (m : M A) (k : A → M B) :
  effect_free m → (∀ a, effect_free (k a)) → effect_free (Run.bind m k).
Proof.
  intros [[a|e] Hm] Hk.
  - destruct (Hk a) as [r Hka]. exists r. intros fs.
    rewrite (bind_Ok _ _ _ _ _ _ (Hm fs)), Hka. reflexivity.
  - exists (Raise e). intros fs. by rewrite (bind_Raise _ _ _ _ _ _ (Hm fs)).
Qed.

Lemma effect_free_for_each {A B} (body : A → M B) (xs : list A) :
  (∀ x, effect_free (body x)) → effect_free (for_each body xs).
Proof.
  intros Hbody. induction xs as [|x xs IH]; simpl.
  - apply effect_free_ret.
  - apply effect_free_bind; [apply Hbody |]. intros y.
    apply effect_free_bind; [apply IH |]. intros ys. apply effect_free_ret.
Qed.

Create HintDb pure_run discriminated.
#[local] Hint Resolve effect_free_lift effect_free_ret effect_free_raise : pure_run.
#[local] Hint Extern 2 (effect_free (Run.bind _ _)) =>
  apply effect_free_bind; [| intros ?] : pure_run.
#[local] Hint Extern 2 (effect_free (for_each _ _)) =>
  apply effect_free_for_each; intros ? : pure_run.

Lemma effect_free_enrich (item : value) : effect_free (enrich item).
Proof. unfold enrich. auto 10 with pure_run. Qed.

Lemma effect_free_build_output (structured_data : value) :
  effect_free (build_output structured_data).
Proof.
  unfold build_output. pose proof effect_free_enrich. auto 10 with pure_run.
Qed.

Lemma effect_free_stamp_items (url : string) (structured_data : value) :
  effect_free (stamp_items url structured_data).
Proof.
  unfold stamp_items.
  apply effect_free_bind; [auto with pure_run |]. intros its.
  apply effect_free_bind; [auto with pure_run |]. intros seq.
  apply effect_free_bind; [auto with pure_run |]. intros stamped.
  destruct its; auto with pure_run.
Qed.

Lemma effect_free_first_parse (lib : Codec) (raw_output : string) :
  effect_free (first_parse lib raw_output).
Proof.
  unfold first_parse.
  destruct (Text.search_brace_span _); auto 10 with pure_run.
Qed.

(* ===================================================================== *)
(** ** The Reduce stage                                                   *)
(* ===================================================================== *)

Lemma enrich_Ok (item row : value) fs fs' tr :
  enrich item fs = (Ok row, fs', tr) → enriched_from item row.
Proof.
  unfold enrich, Run.bind, lift, ret, enriched_from.
  destruct (getitem item "url") as [u|?]; [| done].
  destruct (getitem item "product_description") as [d|?]; [| done].
  destruct (getitem item "product_link") as [l|?]; [| done].
  simpl. intros [= <- _ _]. by exists u, d, l.
Qed.

Lemma for_each_enrich_Ok (seq rows : list value) fs fs' tr :
  for_each enrich seq fs = (Ok rows, fs', tr) → Forall2 enriched_from seq rows.
Proof.
  revert rows fs fs' tr.
  induction seq as [|item seq IH]; intros rows fs fs' tr; simpl.
  - unfold ret. intros [= <- _ _]. constructor.
  - intros H. apply bind_inv in H as [(row & fs1 & t1 & t2 & Hrow & H & _) | (? & _ & [=])].
    apply bind_inv in H as [(rest & fs2 & t3 & t4 & Hrest & H & _) | (? & _ & [=])].
    unfold ret in H. injection H as <- _ _.
    constructor; [by eapply enrich_Ok | by eapply IH].
Qed.

Lemma build_output_Ok (structured_data : value) (rows : list value) fs fs' tr :
  build_output structured_data fs = (Ok rows, fs', tr) →
  ∃ its seq,
    getitem structured_data "items" = Ok its
    ∧ iterate its = Ok seq
    ∧ Forall2 enriched_from seq rows.
Proof.
  unfold build_output. intros H.
  apply bind_inv in H as [(its & fs1 & t1 & t2 & Hits & H & _) | (? & _ & [=])].
  apply bind_inv in H as [(seq & fs2 & t3 & t4 & Hseq & H & _) | (? & _ & [=])].
  unfold lift in Hits, Hseq.
  injection Hits as Hits _ _. injection Hseq as Hseq _ _.
  exists its, seq. split_and!; [done | done |]. by eapply for_each_enrich_Ok.
Qed.

(* ===================================================================== *)
(** ** The per-URL pipeline: the recovery boundary                        *)
(* ===================================================================== *)

Section Boundary.

Variable lib : Codec.
Variable svc : Services.
Variable url output_folder : string.

(** [process_url] returns a list whatever happens inside its [try]. *)
Lemma process_url_returns (fs : Run.store) :
  ∃ rows fs' tr, process_url lib svc url output_folder fs = (Ok rows, fs', tr).
Proof.
  unfold process_url, try_except.
  destruct (process_url_try lib svc url output_folder fs) as [[[rows|e] fs1] t1].
  - by exists rows, fs1, t1.
  - simpl. by exists [error_row url e], fs1, (t1 ++ []).
Qed.


(** The three stages are all there is in the [try] block. *)
Lemma process_url_try_raises_inv (fs : Run.store) e fs' tr :
  process_url_try lib svc url output_folder fs = (Raise e, fs', tr) →
  raised_in_stage lib svc url output_folder fs e fs' tr.
Proof.
  unfold process_url_try. intros H.
  apply bind_inv in H as [(raw & fs1 & t1 & t2 & Hraw & H & ->) | (e' & Hraw & [= <-])];
    [| by apply raised_in_raw_fetch].
  apply bind_inv in H as [(sd & fs2 & t3 & t4 & Hsd & H & ->) | (e' & Hsd & [= <-])];
    [| by eapply raised_in_extract].
  by eapply raised_in_reduce.
Qed.

Lemma process_url_try_returns (fs : Run.store) rows fs' tr :
  process_url_try lib svc url output_folder fs = (Ok rows, fs', tr) →
  ∃ seq, listing_items lib svc url output_folder fs seq
         ∧ Forall2 enriched_from seq rows.
Proof.
  unfold process_url_try. intros H.
  apply bind_inv in H as [(raw & fs1 & t1 & t2 & Hraw & H & _) | (? & _ & [=])].
  apply bind_inv in H as [(sd & fs2 & t3 & t4 & Hsd & H & _) | (? & _ & [=])].
  apply build_output_Ok in H as (its & seq & Hits & Hseq & Hrows).
  exists seq. split; [| done].
  by exists raw, fs1, t1, sd, fs2, t3, its.
Qed.

End Boundary.



Lemma process_url_outcome
    (lib : Codec) (svc : Services) (url output_folder : string) (fs : Run.store) :
  ∃ rows fs' tr,
    process_url lib svc url output_folder fs = (Ok rows, fs', tr)
    ∧ ((∃ e, rows = [error_row url e])
       ∨ (∃ seq, listing_items lib svc url output_folder fs seq
                 ∧ Forall2 enriched_from seq rows)).
Proof.
  unfold process_url, try_except.
  destruct (process_url_try lib svc url output_folder fs)
    as [[[rows|e] fs1] t1] eqn:Htry.
  - exists rows, fs1, t1. split; [done |]. right.
    by apply process_url_try_returns in Htry.
  - simpl. exists [error_row url e], fs1, (t1 ++ []). split; [done |].
    left. by exists e.
Qed.



Example raised_in_extract_example :
  ∃ fs' tr,
    raised_in_stage Example.lib Example.svc_garbled Example.page_a "output" ∅
      Example.garbled_error fs' tr.
Proof.
  do 2 eexists. eapply raised_in_extract; vm_compute; reflexivity.
Qed.

Example raised_in_reduce_example :
  ∃ fs' tr,
    raised_in_stage Example.lib Example.svc Example.page_a "output" ∅
      (KeyError "product_description") fs' tr.
Proof.
  do 2 eexists. eapply raised_in_reduce; vm_compute; reflexivity.
Qed.

(* ===================================================================== *)
(** ** A freshly extracted Listing                                        *)
(* ===================================================================== *)

Lemma for_each_stamp (url : string) (ps : list ProductItem) (fs : Run.store) :
  for_each (λ item, lift (setitem item "url" (VStr url))) (map ProductItem_dict ps) fs
  = (Ok (map (stamped_item url) ps), fs, []).
Proof.
  induction ps as [|p ps IH]; [done |].
  simpl. unfold Run.bind at 1. simpl.
  unfold Run.bind at 1. rewrite IH. reflexivity.
Qed.

Lemma stamp_items_fresh (url : string) (listing : Listings) (fs : Run.store) :
  stamp_items url (Listings_dict listing) fs
  = (Ok (VDict [("items", VList (map (stamped_item url) (items listing)))]), fs, []).
Proof.
  unfold stamp_items, Listings_dict.
  unfold Run.bind at 1. simpl.
  unfold Run.bind at 1. simpl.
  unfold Run.bind at 1. rewrite for_each_stamp. reflexivity.
Qed.

(** The dict a model instance turns into has the key [product_name], not
    [product_description]: the Reduce stage raises [KeyError] on the first
    item of a freshly extracted Listing. *)
Lemma build_output_fresh (url : string) (listing : Listings) (fs : Run.store) :
  build_output (VDict [("items", VList (map (stamped_item url) (items listing)))]) fs
  = (match items listing with
     | [] => Ok []
     | _ :: _ => Raise (KeyError "product_description")
     end, fs, []).
Proof.
  unfold build_output. destruct (items listing) as [|p ps]; reflexivity.
Qed.

(* ===================================================================== *)
(** ** The greedy brace span                                              *)
(* ===================================================================== *)

Lemma from_first_skip (a : ascii) (pre rest : list ascii) :
  a ∉ pre → Text.from_first a (pre ++ a :: rest) = Some (a :: rest).
Proof.
  induction pre as [|c pre IH]; intros Hpre; simpl.
  - by rewrite (proj2 (is_char_true a a)).
  - apply not_elem_of_cons in Hpre as [Hc Hpre].
    rewrite (proj2 (is_char_false a c)); [by apply IH | done].
Qed.

Lemma upto_last_absent (a : ascii) (s : list ascii) :
  a ∉ s → Text.upto_last a s = None.
Proof.
  induction s as [|c s IH]; intros Hs; [done |].
  apply not_elem_of_cons in Hs as [Hc Hs]. simpl.
  rewrite (IH Hs). by rewrite (proj2 (is_char_false a c)).
Qed.

Lemma upto_last_keep (a : ascii) (mid post : list ascii) :
  a ∉ post → Text.upto_last a (mid ++ a :: post) = Some (mid ++ [a]).
Proof.
  intros Hpost. induction mid as [|c mid IH]; simpl.
  - rewrite (upto_last_absent _ _ Hpost).
    by rewrite (proj2 (is_char_true a a)).
  - by rewrite IH.
Qed.

(** The span found in [pre ++ { mid } ++ post] is [{ mid }] whenever no
    opening brace precedes it and no closing brace follows it; [mid]
    itself may hold braces and newlines. *)
Lemma search_brace_span_found (pre mid post : list ascii) :
  "{"%char ∉ pre → "}"%char ∉ post →
  Text.search_brace_span (pre ++ ("{"%char :: mid ++ ["}"%char]) ++ post)
  = Some ("{"%char :: mid ++ ["}"%char]).
Proof.
  intros Hpre Hpost. unfold Text.search_brace_span.
  replace (("{"%char :: mid ++ ["}"%char]) ++ post)
    with ("{"%char :: mid ++ "}"%char :: post)
    by (simpl; by rewrite <- app_assoc).
  rewrite (from_first_skip _ _ _ Hpre).
  by rewrite (upto_last_keep _ _ _ Hpost).
Qed.




(* ===================================================================== *)
(** ** The extraction engine                                              *)
(* ===================================================================== *)

Section Extraction.

Variable lib : Codec.
Variable svc : Services.

Lemma invoke_chat_run (messages : list message) (fs : Run.store) :
  invoke_chat svc messages fs = (chat_invoke svc messages, fs, [ChatInvoke messages]).
Proof. unfold invoke_chat, Run.bind, emit, lift. by destruct (chat_invoke _ _). Qed.

Lemma invoke_fixing_parser_run (completion : string) (fs : Run.store) :
  invoke_fixing_parser svc completion fs
  = (fixing_parse svc completion, fs, [FixingParse completion]).
Proof.
  unfold invoke_fixing_parser, Run.bind, emit, lift.
  by destruct (fixing_parse _ _).
Qed.


Lemma repair_parse_run (raw_output : string) (fs : Run.store) :
  repair_parse svc raw_output fs
  = (match fixing_parse svc raw_output with
     | Ok fixed => Ok (Listings_dict fixed)
     | Raise final_err => Raise (ValueError (extraction_message final_err raw_output))
     end, fs, [FixingParse raw_output]).
Proof.
  unfold repair_parse, try_except, Run.bind.
  rewrite invoke_fixing_parser_run.
  by destruct (fixing_parse svc raw_output).
Qed.

End Extraction.





(** The boundary of the property: with a brace-delimited remark in front,
    the greedy span starts too early, the first parse fails and the
    output-fixing parser is run. *)
Example extract_with_llm_stray_brace :
  (extract_with_llm Example.lib Example.svc_stray "# Shop A" ∅).2
  = [ChatInvoke (build_messages Example.lib "# Shop A");
     FixingParse Example.stray_answer].
Proof. vm_compute. reflexivity. Qed.





(* ===================================================================== *)
(** ** The page fetcher                                                   *)
(* ===================================================================== *)

Lemma scrape_markdown_run (svc : Services) (url : string) (fs : Run.store) :
  scrape_markdown svc url fs
  = (match scrape_url svc url with
     | Raise e => Raise e
     | Ok r =>
         match dict_get "markdown" (attributes r) with
         | Some markdown => Ok markdown
         | None =>
             match mapping r with
             | Some d =>
                 match dict_get "markdown" d with
                 | Some markdown => Ok markdown
                 | None => Raise no_markdown
                 end
             | None => Raise no_markdown
             end
         end
     end, fs, [ScrapeUrl url]).
Proof.
  unfold scrape_markdown, Run.bind, emit, lift.
  destruct (scrape_url svc url) as [r|e]; [| done].
  destruct (dict_get "markdown" (attributes r)); [done |].
  destruct (mapping r) as [d|]; [| done].
  by destruct (dict_get "markdown" d).
Qed.

(** C7: a failure of the backend call leaves [scrape_markdown] as it is;
    when the backend returns a result, [scrape_markdown] raises the
    no-markdown error exactly when the result has neither a [markdown]
    attribute nor, being a mapping, a [markdown] key, and it returns the
    value found under [markdown] (unchanged, so a string when that is a
    string) exactly when one of the two shapes provides it. *)
Theorem scrape_markdown_contract (svc : Services) (url : string) (fs : Run.store) :
  (∀ e, scrape_url svc url = Raise e →
        scrape_markdown svc url fs = (Raise e, fs, [ScrapeUrl url]))
  ∧ (∀ r, scrape_url svc url = Ok r →
       (scrape_markdown svc url fs = (Raise no_markdown, fs, [ScrapeUrl url])
        ↔ lacks_markdown r)
       ∧ (∀ v, scrape_markdown svc url fs = (Ok v, fs, [ScrapeUrl url])
               ↔ provides_markdown r v)).
Proof.
  rewrite scrape_markdown_run. split.
  - by intros e ->.
  - intros r ->. unfold lacks_markdown, provides_markdown.
    destruct (dict_get "markdown" (attributes r)) as [a|] eqn:Hattr.
    + split; [| intros v].
      * split; [done | by intros [? _]].
      * split; [intros [= ->]; by left |].
        intros [[= ->] | [? _]]; done.
    + destruct (mapping r) as [d|] eqn:Hmap.
      * destruct (dict_get "markdown" d) as [x|] eqn:Hkey.
        -- split; [| intros v].
           ++ split; [done |]. intros [_ H]. specialize (H d eq_refl). congruence.
           ++ split; [intros [= ->]; right; eauto |].
              intros [? | [_ (d' & [= <-] & H)]]; [done |]. congruence.
        -- split; [| intros v].
           ++ split; [| done]. intros _. split; [done |]. by intros d' [= <-].
           ++ split; [done |].
              intros [? | [_ (d' & [= <-] & H)]]; [done |]. congruence.
      * split; [| intros v].
        -- split; [| done]. intros _. split; done.
        -- split; [done |]. intros [? | [_ (d' & ? & _)]]; done.
Qed.

Lemma scrape_markdown_contract_witness :
  scrape_markdown Example.svc Example.page_b ∅
  = (Raise Example.refused, ∅, [ScrapeUrl Example.page_b])
  ∧ scrape_markdown Example.svc Example.page_a ∅
    = (Ok (VStr "# Shop A"), ∅, [ScrapeUrl Example.page_a])
  ∧ scrape_markdown Example.svc_mapping Example.page_a ∅
    = (Ok (VStr "# Shop M"), ∅, [ScrapeUrl Example.page_a]).
Proof.
  split_and!.
  - by apply (proj1 (scrape_markdown_contract Example.svc Example.page_b ∅)).
  - apply (proj2 (scrape_markdown_contract Example.svc Example.page_a ∅)
             Example.shop_page eq_refl).
    by left.
  - eapply (proj2 (scrape_markdown_contract Example.svc_mapping Example.page_a ∅)
              _ eq_refl).
    right. split; [done |]. eexists. split; reflexivity.
Defined.

(* ===================================================================== *)
(** ** The per-URL pipeline: the two caches                               *)
(* ===================================================================== *)

Lemma append_assoc (a b c : string) : (a +:+ b) +:+ c = a +:+ b +:+ c.
Proof.
  induction a as [|x a IH]; [reflexivity |].
  change (String x ((a +:+ b) +:+ c) = String x (a +:+ b +:+ c)).
  by rewrite IH.
Qed.

(** The directory part [os.path.join] puts before a file name does not
    depend on the extension. *)
Lemma path_join_prefix (a base : string) :
  ∃ p, ∀ ext, Text.starts_with_slash ext = false →
              Text.path_join a (base +:+ ext) = p +:+ base +:+ ext.
Proof.
  assert (∃ b, ∀ ext, Text.starts_with_slash ext = false →
                      Text.starts_with_slash (base +:+ ext) = b) as [b Hb].
  { destruct base as [|c base].
    - by exists false.
    - by exists (Text.is_char "/" c). }
  unfold Text.path_join. destruct b.
  - exists EmptyString. intros ext Hext. by rewrite (Hb ext Hext).
  - destruct a as [|x a].
    + exists EmptyString. intros ext Hext. by rewrite (Hb ext Hext).
    + destruct (Text.ends_with_slash (String x a)).
      * exists (String x a). intros ext Hext. by rewrite (Hb ext Hext).
      * exists (String x a +:+ "/"). intros ext Hext.
        by rewrite (Hb ext Hext), append_assoc.
Qed.

Lemma path_join_ext_inj (a base ext1 ext2 : string) :
  Text.starts_with_slash ext1 = false → Text.starts_with_slash ext2 = false →
  Text.path_join a (base +:+ ext1) = Text.path_join a (base +:+ ext2) →
  ext1 = ext2.
Proof.
  intros H1 H2. destruct (path_join_prefix a base) as [p Hp].
  rewrite (Hp _ H1), (Hp _ H2). intros H.
  by apply (inj (String.append p)), (inj (String.append base)) in H.
Qed.

Lemma raw_path_ne_json_path (url output_folder : string) :
  raw_path_of url output_folder ≠ json_path_of url output_folder.
Proof. intros H. by apply path_join_ext_inj in H. Qed.

Lemma json_path_ne_excel_path (url output_folder : string) :
  json_path_of url output_folder ≠ excel_path_of url output_folder.
Proof. intros H. by apply path_join_ext_inj in H. Qed.

Section Caches.

Variable lib : Codec.

Lemma load_or_scrape_hit (svc : Services) (url raw_path raw_text : string)
    (fs : Run.store) :
  fs !! raw_path = Some raw_text →
  load_or_scrape svc url raw_path fs = (Ok raw_text, fs, [ReadFile raw_path]).
Proof.
  intros Hraw. unfold load_or_scrape, Run.bind, path_exists.
  rewrite bool_decide_true by (by rewrite Hraw).
  unfold read_text. by rewrite Hraw.
Qed.

Lemma load_or_scrape_miss (svc : Services) (url raw_path : string) (fs : Run.store) :
  fs !! raw_path = None →
  load_or_scrape svc url raw_path fs
  = match (scrape_markdown svc url fs).1.1 with
    | Raise e => (Raise e, fs, [ScrapeUrl url])
    | Ok (VStr s) =>
        (Ok s, <[raw_path := s]> fs,
         [ScrapeUrl url; OpenForWrite raw_path; WriteFile raw_path s])
    | Ok raw_data =>
        (Raise (TypeError ("write() argument must be str, not "
                           +:+ argument_name raw_data)),
         <[raw_path := EmptyString]> fs, [ScrapeUrl url; OpenForWrite raw_path])
    end.
Proof.
  intros Hraw. unfold load_or_scrape, Run.bind at 1, path_exists.
  rewrite bool_decide_false by (rewrite Hraw; by intros [? ?]).
  unfold Run.bind at 1. rewrite scrape_markdown_run. simpl.
  match goal with |- context [match ?r with Ok _ => _ | Raise _ => _ end] =>
    destruct r as [raw_data|e] end; [| done].
  destruct raw_data; try done.
  unfold Run.bind, open_w, write_text, ret. simpl.
  by rewrite insert_insert_eq.
Qed.

Lemma load_or_extract_hit (svc : Services) (url json_path excel_path raw_data : string)
    (json_text : string) (fs : Run.store) :
  fs !! json_path = Some json_text →
  load_or_extract lib svc url json_path excel_path raw_data fs
  = (json_loads lib json_text, fs, [ReadFile json_path]).
Proof.
  intros Hjson. unfold load_or_extract, Run.bind at 1, path_exists.
  rewrite bool_decide_true by (by rewrite Hjson).
  unfold Run.bind, read_text, lift. rewrite Hjson.
  by destruct (json_loads lib json_text).
Qed.

(** Once the raw text is there and the structured-data artifact exists,
    the outcome is a function of the text of that artifact. *)
Lemma process_url_json_cached (url output_folder json_text : string) :
  ∃ rows, ∀ (svc : Services) (fs : Run.store) raw_data fs1 t1,
    load_or_scrape svc url (raw_path_of url output_folder) fs = (Ok raw_data, fs1, t1) →
    fs1 !! json_path_of url output_folder = Some json_text →
    process_url lib svc url output_folder fs
    = (Ok rows, fs1, t1 ++ [ReadFile (json_path_of url output_folder)]).
Proof.
  assert (effect_free (structured_data <- lift (json_loads lib json_text) ;;
                       build_output structured_data)) as [r Hr].
  { apply effect_free_bind; [apply effect_free_lift |].
    apply effect_free_build_output. }
  exists (match r with Ok rows => rows | Raise e => [error_row url e] end).
  intros svc fs raw_data fs1 t1 Hload Hjson.
  unfold process_url, try_except, process_url_try.
  rewrite (bind_Ok _ _ _ _ _ _ Hload).
  pose proof (load_or_extract_hit svc url _ (excel_path_of url output_folder)
                raw_data _ fs1 Hjson) as Hhit.
  specialize (Hr fs1). unfold Run.bind, lift in Hr.
  destruct (json_loads lib json_text) as [sd|e].
  - rewrite (bind_Ok _ _ _ _ _ _ Hhit).
    destruct (build_output sd fs1) as [[r' fs2] t2].
    simpl in Hr. injection Hr as -> -> ->.
    destruct r; simpl; by rewrite ?app_nil_r.
  - rewrite (bind_Raise _ _ _ _ _ _ Hhit).
    injection Hr as <-. simpl. by rewrite app_nil_r.
Qed.

Lemma process_url_cached (url output_folder : string)
    (raw_text json_text : string) :
  ∃ rows, ∀ (svc : Services) (fs : Run.store),
    fs !! raw_path_of url output_folder = Some raw_text →
    fs !! json_path_of url output_folder = Some json_text →
    process_url lib svc url output_folder fs
    = (Ok rows, fs,
       [ReadFile (raw_path_of url output_folder);
        ReadFile (json_path_of url output_folder)]).
Proof.
  destruct (process_url_json_cached url output_folder json_text) as [rows Hrows].
  exists rows. intros svc fs Hraw Hjson.
  by rewrite (Hrows svc fs _ _ _ (load_or_scrape_hit svc url _ _ fs Hraw) Hjson).
Qed.

End Caches.

(** C8: when the raw-text artifact and the structured-data artifact of a
    URL both exist, [process_url] reads the two files and does nothing
    else (no fetch, no chat invocation, no repair), leaves the store, and
    so the structured-data artifact, byte for byte as it was, and returns
    rows that depend on the artifact alone: whatever the services would
    answer, and however often it is run again. *)
Theorem process_url_cache_hit
    (lib : Codec) (url output_folder raw_text json_text : string) (fs : Run.store) :
  fs !! raw_path_of url output_folder = Some raw_text →
  fs !! json_path_of url output_folder = Some json_text →
  ∃ rows,
    (∀ svc, process_url lib svc url output_folder fs
            = (Ok rows, fs,
               [ReadFile (raw_path_of url output_folder);
                ReadFile (json_path_of url output_folder)]))
    ∧ (∀ svc svc',
         process_url lib svc' url output_folder
           (process_url lib svc url output_folder fs).1.2
         = process_url lib svc url output_folder fs)
    ∧ (∀ svc, Forall (λ ev, is_fetch ev = false ∧ is_llm_call ev = false)
                (process_url lib svc url output_folder fs).2).
Proof.
  intros Hraw Hjson.
  destruct (process_url_cached lib url output_folder raw_text json_text)
    as [rows Hrows].
  exists rows. split_and!.
  - intros svc. by apply Hrows.
  - intros svc svc'. rewrite (Hrows svc fs Hraw Hjson). simpl.
    by apply Hrows.
  - intros svc. rewrite (Hrows svc fs Hraw Hjson). simpl.
    repeat constructor.
Qed.

Lemma process_url_cache_hit_witness :
  ∃ rows,
    (∀ svc, process_url Example.lib svc Example.page_a "output" Example.cached_store
            = (Ok rows, Example.cached_store,
               [ReadFile (raw_path_of Example.page_a "output");
                ReadFile (json_path_of Example.page_a "output")]))
    ∧ (∀ svc svc',
         process_url Example.lib svc' Example.page_a "output"
           (process_url Example.lib svc Example.page_a "output" Example.cached_store).1.2
         = process_url Example.lib svc Example.page_a "output" Example.cached_store)
    ∧ (∀ svc, Forall (λ ev, is_fetch ev = false ∧ is_llm_call ev = false)
                (process_url Example.lib svc Example.page_a "output"
                   Example.cached_store).2).
Proof.
  apply (process_url_cache_hit Example.lib Example.page_a "output" "# Shop A"
           (Example.dumps Example.cached_listing) Example.cached_store).
  - vm_compute. reflexivity.
  - vm_compute. reflexivity.
Defined.

(** With the artifacts of the example on disk the rows are the two
    product rows, even when every service is down. *)
Example process_url_cached_rows :
  (process_url Example.lib Example.svc_down Example.page_a "output"
     Example.cached_store).1.1
  = Ok [VDict [("url", VStr Example.page_a);
               ("product_description", VStr "Mint Gum");
               ("product_link", VStr "https://a.com/mint")];
        VDict [("url", VStr Example.page_a);
               ("product_description", VStr "Cola Drops");
               ("product_link", VStr "https://a.com/cola")]].
Proof. vm_compute. reflexivity. Qed.

(** C10: when the structured-data artifact of a URL exists and its
    raw-text artifact does not, the first thing [process_url] does is call
    the scraping backend; when the fetch gives the text [s], the raw-text
    artifact is written with [s] and only then is the structured-data
    artifact read, no chat invocation taking place. *)
Theorem process_url_json_hit_still_fetches
    (lib : Codec) (svc : Services) (url output_folder json_text : string)
    (fs : Run.store) :
  fs !! raw_path_of url output_folder = None →
  fs !! json_path_of url output_folder = Some json_text →
  (∃ rows fs' tr,
     process_url lib svc url output_folder fs = (Ok rows, fs', ScrapeUrl url :: tr))
  ∧ (∀ s st tr,
       scrape_markdown svc url fs = (Ok (VStr s), st, tr) →
       ∃ rows,
         process_url lib svc url output_folder fs
         = (Ok rows, <[raw_path_of url output_folder := s]> fs,
            [ScrapeUrl url;
             OpenForWrite (raw_path_of url output_folder);
             WriteFile (raw_path_of url output_folder) s;
             ReadFile (json_path_of url output_folder)])).
Proof.
  intros Hraw Hjson.
  pose proof (load_or_scrape_miss svc url _ fs Hraw) as Hmiss.
  destruct (process_url_json_cached lib url output_folder json_text)
    as [rows Hrows].
  assert (Hfetched : ∀ s,
    (scrape_markdown svc url fs).1.1 = Ok (VStr s) →
    process_url lib svc url output_folder fs
    = (Ok rows, <[raw_path_of url output_folder := s]> fs,
       [ScrapeUrl url;
        OpenForWrite (raw_path_of url output_folder);
        WriteFile (raw_path_of url output_folder) s;
        ReadFile (json_path_of url output_folder)])).
  { intros s Hs. rewrite Hs in Hmiss.
    rewrite (Hrows svc fs _ _ _ Hmiss); [done |].
    rewrite lookup_insert_ne; [done | apply raw_path_ne_json_path]. }
  split.
  - destruct (scrape_markdown svc url fs).1.1 as [raw_data|e] eqn:Hscrape.
    + destruct raw_data;
        try (unfold process_url, try_except, process_url_try;
             rewrite (bind_Raise _ _ _ _ _ _ Hmiss); simpl; by eauto).
      rewrite (Hfetched s eq_refl). by eauto.
    + unfold process_url, try_except, process_url_try.
      rewrite (bind_Raise _ _ _ _ _ _ Hmiss). simpl. by eauto.
  - intros s st tr Hs. exists rows. apply Hfetched. by rewrite Hs.
Qed.

Lemma process_url_json_hit_still_fetches_witness :
  (∃ rows fs' tr,
     process_url Example.lib Example.svc Example.page_a "output"
       Example.json_only_store
     = (Ok rows, fs', ScrapeUrl Example.page_a :: tr))
  ∧ (∀ s st tr,
       scrape_markdown Example.svc Example.page_a Example.json_only_store
       = (Ok (VStr s), st, tr) →
       ∃ rows,
         process_url Example.lib Example.svc Example.page_a "output"
           Example.json_only_store
         = (Ok rows, <[raw_path_of Example.page_a "output" := s]> Example.json_only_store,
            [ScrapeUrl Example.page_a;
             OpenForWrite (raw_path_of Example.page_a "output");
             WriteFile (raw_path_of Example.page_a "output") s;
             ReadFile (json_path_of Example.page_a "output")])).
Proof.
  apply (process_url_json_hit_still_fetches Example.lib Example.svc Example.page_a
           "output" (Example.dumps Example.cached_listing) Example.json_only_store).
  - vm_compute. reflexivity.
  - vm_compute. reflexivity.
Defined.

Example process_url_json_only_log :
  (process_url Example.lib Example.svc Example.page_a "output"
     Example.json_only_store).2
  = [ScrapeUrl Example.page_a;
     OpenForWrite "output/https___a_com.md";
     WriteFile "output/https___a_com.md" "# Shop A";
     ReadFile "output/https___a_com.json"].
Proof. vm_compute. reflexivity. Qed.

(* ===================================================================== *)
(** ** A cold structured-data cache                                       *)
(* ===================================================================== *)

Section Fresh.

Variable lib : Codec.
Variable svc : Services.

(** Whatever [extract_with_llm] returns is the [dict()] of a validated
    [Listings], and it leaves the store alone. *)
Lemma extract_with_llm_Ok (data : string) (fs fs1 : Run.store) sd t1 :
  extract_with_llm lib svc data fs = (Ok sd, fs1, t1) →
  ∃ listing, sd = Listings_dict listing ∧ fs1 = fs.
Proof.
  unfold extract_with_llm. intros H.
  apply bind_inv in H as [(content & fs0 & t0 & t2 & Hchat & H & _) | (? & _ & [=])].
  rewrite invoke_chat_run in Hchat. injection Hchat as _ <- _.
  unfold try_except in H.
  destruct (effect_free_first_parse lib (strip_whitespace content)) as [r Hr].
  rewrite Hr in H. unfold first_parse in Hr. destruct r as [sd'|e].
  - injection H as <- <- _.
    destruct (Text.search_brace_span _) as [span|]; [| by specialize (Hr fs)].
    specialize (Hr fs). unfold Run.bind, lift, ret in Hr.
    destruct (parser_parse lib _) as [listing|]; [| done].
    injection Hr as <-. by exists listing.
  - rewrite repair_parse_run in H.
    destruct (fixing_parse svc _) as [fixed|]; [| done].
    injection H as <- <- _. by exists fixed.
Qed.

Lemma load_or_extract_miss (url json_path excel_path raw_data : string)
    (fs : Run.store) :
  fs !! json_path = None →
  load_or_extract lib svc url json_path excel_path raw_data fs
  = (structured_data <- extract_with_llm lib svc raw_data ;;
     structured_data <- stamp_items url structured_data ;;
     open_w json_path ;;;
     write_text json_path (json_dumps lib structured_data) ;;;
     its <- lift (getitem structured_data "items") ;;
     dataframe_to_excel lib excel_path its ;;;
     ret structured_data) fs.
Proof.
  intros Hjson. unfold load_or_extract, Run.bind at 1, path_exists.
  rewrite bool_decide_false by (rewrite Hjson; by intros [? ?]).
  match goal with |- context [?m fs] => by destruct (m fs) as [[? ?] ?] end.
Qed.

(** On a cold structured-data cache [process_url] never returns a product
    row: the Listing is written to disk, and then Reduce returns nothing
    (no items) or raises the [KeyError] that becomes the ErrorRow. *)
Lemma process_url_fresh_never_enriches (url output_folder : string)
    (fs : Run.store) raw_data fs1 t1 :
  load_or_scrape svc url (raw_path_of url output_folder) fs = (Ok raw_data, fs1, t1) →
  fs1 !! json_path_of url output_folder = None →
  ∃ rows fs' tr,
    process_url lib svc url output_folder fs = (Ok rows, fs', tr)
    ∧ (rows = [] ∨ ∃ e, rows = [error_row url e]).
Proof.
  intros Hload Hjson.
  destruct (process_url_outcome lib svc url output_folder fs)
    as (rows & fs' & tr & Hrun & [Herr | (seq & Hitems & Hrows)]).
  { exists rows, fs', tr. split; [done | by right]. }
  exists rows, fs', tr. split; [done | left].
  destruct Hitems as (raw' & fs1' & t1' & sd & fs2 & t2 & its & Hload' & Hext & Hits & Hseq).
  rewrite Hload in Hload'. injection Hload' as <- <- <-.
  rewrite (load_or_extract_miss _ _ _ _ _ Hjson) in Hext.
  apply bind_inv in Hext as [(sd0 & fs3 & t3 & t4 & Hx & Hext & _) | (? & _ & [=])].
  apply extract_with_llm_Ok in Hx as (listing & -> & ->).
  rewrite (bind_Ok _ _ _ _ _ _ (stamp_items_fresh url listing fs1)) in Hext.
  unfold Run.bind, open_w, write_text, lift, dataframe_to_excel, ret in Hext.
  simpl in Hext. injection Hext as <- _ _.
  simpl in Hits. injection Hits as <-. simpl in Hseq. injection Hseq as <-.
  destruct (items listing) as [|p ps]; [by inversion Hrows |].
  inversion Hrows as [|? ? ? ? (u & d & l & _ & Hd & _) _]; subst.
  discriminate Hd.
Qed.

End Fresh.

(* ===================================================================== *)
(** ** The batch runner                                                   *)
(* ===================================================================== *)

Section Batch.

Variable lib : Codec.
Variable svc : Services.
Variable output_folder : string.


(** The loop handles the URLs in order, each from the store the previous
    one left, and appends each row sequence to the accumulator. *)
Lemma batch_loop_sequential (url_list : list string) :
  ∀ (all_results : list value) (fs : Run.store),
  ∃ rowss fs' tr,
    sequentially lib svc output_folder url_list fs rowss fs' tr
    ∧ batch_loop lib svc url_list output_folder all_results fs
      = (Ok (all_results ++ concat rowss), fs', tr).
Proof.
  induction url_list as [|url rest IH]; intros all_results fs.
  - exists [], fs, []. split; [constructor |].
    simpl. unfold ret. by rewrite app_nil_r.
  - destruct (process_url_returns lib svc url output_folder fs)
      as (rows & fs1 & t1 & Hrows).
    destruct (IH (all_results ++ rows) fs1) as (rowss & fs2 & t2 & Hseq & Hloop).
    exists (rows :: rowss), fs2, (t1 ++ t2). split; [by econstructor |].
    simpl. rewrite (bind_Ok _ _ _ _ _ _ Hrows), Hloop.
    by rewrite <- app_assoc.
Qed.

End Batch.


(** With every service down each URL gives its ErrorRow and the summary
    is written all the same, over what was at the summary path. *)
Example run_batch_all_failed :
  run_batch Example.lib Example.svc_down [Example.page_a; Example.page_b]
    default_output_folder default_summary_path
    {[ "output/summary.xlsx" := "stale" ]}
  = (Ok (),
     {[ "output/summary.xlsx" :=
          to_excel Example.lib
            (VList [error_row Example.page_a Example.refused;
                    error_row Example.page_b Example.refused]) ]},
     [Makedirs "output"; ScrapeUrl Example.page_a; ScrapeUrl Example.page_b;
      ToExcel "output/summary.xlsx"
        (VList [error_row Example.page_a Example.refused;
                error_row Example.page_b Example.refused])]).
Proof. vm_compute. reflexivity. Qed.

(** C1: on the batch [[A, B]] where the model returns a Listing of two
    product records for A and the fetch of B raises, the summary holds two
    rows, not three: the Reduce stage looks up [product_description] in
    dicts keyed by [product_name], so A contributes the one ErrorRow of the
    resulting [KeyError]. *)
Theorem run_batch_two_records_one_failure :
  extract_with_llm Example.lib Example.svc "# Shop A" ∅
  = (Ok (Listings_dict Example.two_items), ∅,
     [ChatInvoke (build_messages Example.lib "# Shop A")])
  ∧ scrape_url Example.svc Example.page_b = Raise Example.refused
  ∧ last (run_batch Example.lib Example.svc [Example.page_a; Example.page_b]
            default_output_folder default_summary_path ∅).2
    = Some (ToExcel default_summary_path
              (VList [error_row Example.page_a (KeyError "product_description");
                      error_row Example.page_b Example.refused])).
Proof. split_and!; vm_compute; reflexivity. Qed.

(* ===================================================================== *)
(** ** More about the filename normaliser                                 *)
(* ===================================================================== *)

Section StripMore.

Variable set : ascii → bool.

Lemma lstrip_nil_iff (s : list ascii) :
  Text.lstrip set s = [] ↔ Forall (λ c, set c = true) s.
Proof.
  induction s as [|c s IH]; simpl.
  - split; [constructor | done].
  - destruct (set c) eqn:Hc.
    + rewrite IH. split; [by constructor | by inversion 1].
    + split; [done |]. intros [Hc' _]%Forall_cons. congruence.
Qed.

Lemma strip_nil_iff (s : list ascii) :
  Text.strip set s = [] ↔ Forall (λ c, set c = true) s.
Proof.
  unfold Text.strip, Text.rstrip. split.
  - intros H. apply (f_equal reverse) in H.
    rewrite reverse_involutive, reverse_nil in H.
    apply lstrip_nil_iff in H. rewrite Forall_reverse in H.
    destruct (lstrip_split set s) as (pre & Hs & Hpre).
    rewrite Hs. apply Forall_app. split; [done |].
    destruct (Text.lstrip set s) as [|c rest] eqn:E; [constructor |].
    pose proof (lstrip_head set s c) as Hc. rewrite E in Hc.
    specialize (Hc eq_refl). apply Forall_cons in H as [Hc' _]. congruence.
  - intros H. apply lstrip_nil_iff in H. rewrite H. reflexivity.
Qed.

Lemma lstrip_id (s : list ascii) :
  (∀ c, head s = Some c → set c = false) → Text.lstrip set s = s.
Proof.
  destruct s as [|c s]; [done |]. intros H. simpl.
  by rewrite (H c eq_refl).
Qed.

Lemma strip_id (s : list ascii) :
  (∀ c, head s = Some c → set c = false) →
  (∀ c, last s = Some c → set c = false) →
  Text.strip set s = s.
Proof.
  intros Hhd Hlast. unfold Text.strip, Text.rstrip.
  rewrite (lstrip_id s Hhd).
  rewrite lstrip_id; [apply reverse_involutive |].
  intros c. rewrite head_reverse. apply Hlast.
Qed.

Lemma lstrip_junk_l (p s : list ascii) :
  Forall (λ c, set c = true) p → Text.lstrip set (p ++ s) = Text.lstrip set s.
Proof.
  induction 1 as [|c p Hc _ IH]; [done |]. simpl. by rewrite Hc.
Qed.

Lemma rstrip_junk_r (s q : list ascii) :
  Forall (λ c, set c = true) q → Text.rstrip set (s ++ q) = Text.rstrip set s.
Proof.
  intros Hq. unfold Text.rstrip. rewrite reverse_app.
  rewrite lstrip_junk_l; [done | by apply Forall_reverse].
Qed.

Lemma strip_junk (p s q : list ascii) :
  Forall (λ c, set c = true) p → Forall (λ c, set c = true) q →
  Text.strip set (p ++ s ++ q) = Text.strip set s.
Proof.
  intros Hp Hq. unfold Text.strip. rewrite (lstrip_junk_l _ _ Hp).
  induction s as [|c s IH]; simpl.
  - by rewrite (proj2 (lstrip_nil_iff q) Hq).
  - destruct (set c); [done |].
    apply (rstrip_junk_r (c :: s) q Hq).
Qed.

End StripMore.

Lemma text_nil_iff (l : list ascii) : Text.text l = EmptyString ↔ l = [].
Proof. destruct l; split; done. Qed.

Lemma url_to_filename_text (url : string) :
  url_to_filename url
  = Text.text (Text.strip (Text.is_char separator) (map replace_one (Text.chars url))).
Proof. by rewrite <- url_to_filename_chars, text_chars. Qed.

Lemma is_char_separator_replace_one (c : ascii) :
  Text.is_char separator (replace_one c) = negb (Text.is_alnum c).
Proof.
  unfold replace_one. destruct (Text.is_alnum c) eqn:Hc; [| done].
  change (negb true) with false. apply is_char_false. intros <-. done.
Qed.

Lemma replace_one_fixed (c : ascii) :
  filename_char c = true → replace_one c = c.
Proof.
  unfold filename_char, replace_one.
  destruct (Text.is_alnum c); [done |]. intros H.
  change (Text.is_char separator c = true) in H. by apply is_char_true in H.
Qed.

(** The characters of a file name are those of the class or the
    separator. *)
Lemma url_to_filename_safe_chars (url : string) :
  Forall (λ c, filename_char c = true) (Text.chars (url_to_filename url)).
Proof.
  rewrite url_to_filename_chars.
  destruct (strip_split (Text.is_char separator) (map replace_one (Text.chars url)))
    as (pre & suf & Hbody & _).
  assert (Hall : Forall (λ c, filename_char c = true)
                   (map replace_one (Text.chars url))).
  { apply Forall_forall. intros c (c0 & -> & _)%list_elem_of_fmap.
    apply replace_one_filename_char. }
  rewrite Hbody in Hall. by apply Forall_app in Hall as [_ [? _]%Forall_app].
Qed.

(** X1: [url_to_filename] is idempotent: a file name is its own file
    name, so normalising twice changes nothing. *)
Theorem url_to_filename_idempotent (url : string) :
  url_to_filename (url_to_filename url) = url_to_filename url.
Proof.
  rewrite (url_to_filename_text (url_to_filename url)).
  rewrite <- (text_chars (url_to_filename url)) at 2. f_equal.
  assert (Hmap : map replace_one (Text.chars (url_to_filename url))
                 = Text.chars (url_to_filename url)).
  { pose proof (url_to_filename_safe_chars url) as Hsafe.
    induction Hsafe as [|c l Hc _ IH]; [done |].
    simpl. by rewrite (replace_one_fixed c Hc), IH. }
  rewrite Hmap, url_to_filename_chars.
  apply strip_id; intros c Hc.
  - by apply strip_head in Hc.
  - by apply strip_last in Hc.
Qed.

(** X2: [url_to_filename] tells two URLs apart only by their characters
    of [[a-zA-Z0-9]] and by where the other characters stand: URLs that
    differ in which other character stands at a position get the same
    file name (and so share their cache artifacts). *)
Theorem url_to_filename_collision (url1 url2 : string) :
  Forall2 same_class (Text.chars url1) (Text.chars url2) →
  url_to_filename url1 = url_to_filename url2.
Proof.
  intros H. rewrite !url_to_filename_text. do 2 f_equal.
  induction H as [|a b l1 l2 Hab _ IH]; [done |].
  simpl. rewrite IH. f_equal.
  destruct Hab as [-> | [Ha Hb]]; [done |].
  unfold replace_one. by rewrite Ha, Hb.
Qed.

Lemma url_to_filename_collision_witness :
  url_to_filename "http://a.com/x?y" = url_to_filename "http_//a/com?x/y".
Proof.
  apply url_to_filename_collision. vm_compute.
  repeat (constructor; [first [by left | by right] |]). constructor.
Defined.

(** X3: characters outside [[a-zA-Z0-9]] at the start or at the end of a
    URL do not show in its file name: the URL with and without a trailing
    slash, or with and without such a prefix, name the same artifacts. *)
Theorem url_to_filename_ignores_ends (before url after : string) :
  Forall (λ c, Text.is_alnum c = false) (Text.chars before) →
  Forall (λ c, Text.is_alnum c = false) (Text.chars after) →
  url_to_filename (before +:+ url +:+ after) = url_to_filename url.
Proof.
  intros Hb Ha. rewrite !url_to_filename_text. f_equal.
  rewrite !chars_app, !map_app.
  apply strip_junk; apply Forall_forall; intros c (c0 & -> & Hin)%list_elem_of_fmap;
    rewrite is_char_separator_replace_one.
  - rewrite Forall_forall in Hb. by rewrite (Hb c0 Hin).
  - rewrite Forall_forall in Ha. by rewrite (Ha c0 Hin).
Qed.

Lemma url_to_filename_ignores_ends_witness :
  url_to_filename ("//" +:+ "www.shop.com" +:+ "/?") = url_to_filename "www.shop.com".
Proof.
  apply url_to_filename_ignores_ends; vm_compute; repeat constructor.
Defined.

Lemma filter_alnum_junk (l : list ascii) :
  Forall (λ c, Text.is_char separator c = true) l →
  List.filter Text.is_alnum l = [].
Proof.
  induction 1 as [|c l Hc _ IH]; [done |].
  simpl. apply is_char_true in Hc as <-. by rewrite IH.
Qed.

Lemma is_alnum_replace_one (c : ascii) :
  Text.is_alnum (replace_one c) = Text.is_alnum c.
Proof. unfold replace_one. by destruct (Text.is_alnum c) eqn:Hc. Qed.

Lemma filter_alnum_replace_one (l : list ascii) :
  List.filter Text.is_alnum (map replace_one l) = List.filter Text.is_alnum l.
Proof.
  induction l as [|c l IH]; [done |].
  cbn [List.map List.filter]. rewrite is_alnum_replace_one, IH.
  destruct (Text.is_alnum c) eqn:Hc; [| done].
  f_equal. unfold replace_one. by rewrite Hc.
Qed.

(** X4: the file name keeps every character of [[a-zA-Z0-9]] of the URL,
    in order and unchanged, and is never longer than the URL. *)
Theorem url_to_filename_keeps_alnum (url : string) :
  List.filter Text.is_alnum (Text.chars (url_to_filename url))
  = List.filter Text.is_alnum (Text.chars url)
  ∧ length (Text.chars (url_to_filename url)) ≤ length (Text.chars url).
Proof.
  rewrite url_to_filename_chars.
  destruct (strip_split (Text.is_char separator) (map replace_one (Text.chars url)))
    as (pre & suf & Hbody & Hpre & Hsuf).
  pose proof (filter_alnum_replace_one (Text.chars url)) as Hfilter.
  set (body := map replace_one (Text.chars url)) in *.
  set (out := Text.strip (Text.is_char separator) body) in *.
  split.
  - rewrite <- Hfilter.
    transitivity (List.filter Text.is_alnum (pre ++ out ++ suf));
      [| by rewrite <- Hbody].
    rewrite !List.filter_app, (filter_alnum_junk _ Hpre), (filter_alnum_junk _ Hsuf).
    by rewrite app_nil_r.
  - assert (Hlen : length body = length (pre ++ out ++ suf)) by (by rewrite <- Hbody).
    unfold body in Hlen at 1. rewrite length_map, !length_app in Hlen. lia.
Qed.

(** X5: the file name is empty exactly when the URL holds no character
    of [[a-zA-Z0-9]] (the empty URL included); all such URLs share the
    artifacts [.md], [.json] and [.xlsx]. *)
Theorem url_to_filename_empty_iff (url : string) :
  url_to_filename url = EmptyString
  ↔ Forall (λ c, Text.is_alnum c = false) (Text.chars url).
Proof.
  rewrite url_to_filename_text, text_nil_iff, strip_nil_iff.
  rewrite Forall_fmap. apply Forall_iff. intros c. unfold compose.
  rewrite is_char_separator_replace_one. by destruct (Text.is_alnum c).
Qed.

(* ===================================================================== *)
(** ** Where the artifacts live                                           *)
(* ===================================================================== *)

Lemma filename_char_not (a : ascii) (url : string) :
  filename_char a = false → a ∉ Text.chars (url_to_filename url).
Proof.
  intros Ha Hin. pose proof (url_to_filename_safe_chars url) as Hsafe.
  rewrite Forall_forall in Hsafe. specialize (Hsafe a Hin). congruence.
Qed.

Lemma starts_with_slash_filename (url ext : string) :
  Text.starts_with_slash ext = false →
  Text.starts_with_slash (url_to_filename url +:+ ext) = false.
Proof.
  intros Hext. pose proof (filename_char_not "/"%char url eq_refl) as Hno.
  destruct (url_to_filename url) as [|c b]; [done |].
  change (Text.is_char "/"%char c = false). apply is_char_false.
  intros <-. apply Hno. apply list_elem_of_here.
Qed.

Lemma artifact_path_shape (url output_folder ext : string) :
  Text.starts_with_slash ext = false →
  Text.path_join output_folder (url_to_filename url +:+ ext)
  = folder_prefix output_folder +:+ url_to_filename url +:+ ext.
Proof.
  intros Hext. unfold Text.path_join, folder_prefix.
  rewrite (starts_with_slash_filename url ext Hext).
  destruct output_folder as [|x a]; [done |].
  destruct (Text.ends_with_slash (String x a)); [done |].
  by rewrite append_assoc.
Qed.

(** X6: the three artifacts of a URL are three different files directly
    under the output folder: each path is the folder (with one slash
    after it when it has none), the file name and the extension.  The file
    name holds neither a slash nor a dot, so whatever the URL is, it cannot
    name a file elsewhere or be taken for an absolute path. *)
Theorem artifacts_inside_output_folder (url output_folder : string) :
  artifact_paths url output_folder
  = [folder_prefix output_folder +:+ url_to_filename url +:+ ".md";
     folder_prefix output_folder +:+ url_to_filename url +:+ ".json";
     folder_prefix output_folder +:+ url_to_filename url +:+ ".xlsx"]
  ∧ NoDup (artifact_paths url output_folder)
  ∧ ("/"%char ∉ Text.chars (url_to_filename url))
  ∧ ("."%char ∉ Text.chars (url_to_filename url)).
Proof.
  split_and!.
  - unfold artifact_paths, raw_path_of, json_path_of, excel_path_of.
    by rewrite !artifact_path_shape.
  - unfold artifact_paths, raw_path_of, json_path_of, excel_path_of.
    repeat constructor.
    + intros Hin. repeat (apply elem_of_cons in Hin as [Hin|Hin];
        [by apply path_join_ext_inj in Hin |]). by apply elem_of_nil in Hin.
    + intros Hin. repeat (apply elem_of_cons in Hin as [Hin|Hin];
        [by apply path_join_ext_inj in Hin |]). by apply elem_of_nil in Hin.
    + by intros Hin%elem_of_nil.
  - by apply filename_char_not.
  - by apply filename_char_not.
Qed.

(* ===================================================================== *)
(** ** The greedy brace span, both ways                                   *)
(* ===================================================================== *)

Lemma from_first_Some (a : ascii) (s r : list ascii) :
  Text.from_first a s = Some r →
  ∃ pre rest, s = pre ++ a :: rest ∧ r = a :: rest ∧ a ∉ pre.
Proof.
  induction s as [|c s IH]; [done |]. simpl.
  destruct (Text.is_char a c) eqn:Hc.
  - apply is_char_true in Hc as <-. intros [= <-].
    exists [], s. split_and!; [done | done | by intros ?%elem_of_nil].
  - intros (pre & rest & -> & -> & Hpre)%IH.
    exists (c :: pre), rest. split_and!; [done | done |].
    apply not_elem_of_cons. split; [by apply is_char_false | done].
Qed.

Lemma upto_last_None (a : ascii) (s : list ascii) :
  Text.upto_last a s = None → a ∉ s.
Proof.
  induction s as [|c s IH]; intros H Hin; [by apply elem_of_nil in Hin |].
  simpl in H. destruct (Text.upto_last a s) eqn:E; [done |].
  destruct (Text.is_char a c) eqn:Hc; [done |].
  apply elem_of_cons in Hin as [-> | Hin]; [| by apply IH].
  by rewrite (proj2 (is_char_true c c)) in Hc.
Qed.

Lemma upto_last_Some (a : ascii) (s p : list ascii) :
  Text.upto_last a s = Some p →
  ∃ mid post, s = mid ++ a :: post ∧ p = mid ++ [a] ∧ a ∉ post.
Proof.
  revert p. induction s as [|c s IH]; intros p; [done |]. simpl.
  destruct (Text.upto_last a s) as [p'|] eqn:Hs.
  - intros [= <-]. destruct (IH p' eq_refl) as (mid & post & -> & -> & Hpost).
    by exists (c :: mid), post.
  - destruct (Text.is_char a c) eqn:Hc; [| done].
    apply is_char_true in Hc as <-. intros [= <-].
    exists [], s. split_and!; [done | done | by apply upto_last_None].
Qed.

(** X7: the span [re.search(r'\{.*\}', s, re.DOTALL)] finds is exactly
    the text from the first opening brace of [s] to its last closing
    brace: [span] is found if and only if [s] is [pre ++ span ++ post]
    where [span] starts with an opening and ends with a closing brace, no
    opening brace stands in [pre] and no closing brace in [post].  Two
    objects in one response are therefore taken as one span. *)
Theorem search_brace_span_iff (s span : list ascii) :
  Text.search_brace_span s = Some span
  ↔ ∃ pre mid post,
      s = pre ++ span ++ post
      ∧ span = "{"%char :: mid ++ ["}"%char]
      ∧ ("{"%char ∉ pre) ∧ ("}"%char ∉ post).
Proof.
  split.
  - unfold Text.search_brace_span.
    destruct (Text.from_first "{"%char s) as [r|] eqn:Hfirst; [| done].
    apply from_first_Some in Hfirst as (pre & rest & -> & -> & Hpre).
    destruct (Text.upto_last "}"%char rest) as [p|] eqn:Hlast; [| done].
    apply upto_last_Some in Hlast as (mid & post & -> & -> & Hpost).
    intros [= <-]. exists pre, mid, post. split_and!; try done.
    simpl. by rewrite <- !app_assoc.
  - intros (pre & mid & post & -> & -> & Hpre & Hpost).
    by apply search_brace_span_found.
Qed.


(* ===================================================================== *)
(** ** More about the extraction engine                                   *)
(* ===================================================================== *)

Lemma extract_with_llm_run (lib : Codec) (svc : Services) (data : string)
    (fs : Run.store) :
  ∃ r tr,
    extract_with_llm lib svc data fs = (r, fs, tr)
    ∧ (tr = [ChatInvoke (build_messages lib data)]
       ∨ ∃ content,
           chat_invoke svc (build_messages lib data) = Ok content
           ∧ tr = [ChatInvoke (build_messages lib data);
                   FixingParse (strip_whitespace content)])
    ∧ (∀ e, chat_invoke svc (build_messages lib data) = Raise e →
            r = Raise e ∧ tr = [ChatInvoke (build_messages lib data)]).
Proof.
  unfold extract_with_llm.
  destruct (chat_invoke svc (build_messages lib data)) as [content|e] eqn:Hchat.
  - rewrite (bind_Ok _ _ _ content fs [ChatInvoke (build_messages lib data)]);
      [| by rewrite invoke_chat_run, Hchat].
    destruct (effect_free_first_parse lib (strip_whitespace content)) as [r Hr].
    destruct r as [sd|e].
    + rewrite (try_except_Ok _ _ _ _ _ _ (Hr fs)).
      exists (Ok sd), [ChatInvoke (build_messages lib data)].
      split_and!; [done | by left | done].
    + rewrite (try_except_Raise _ _ _ _ _ _ (Hr fs)), repair_parse_run.
      eexists _, _. split_and!; [reflexivity | | done].
      right. by exists content.
  - rewrite (bind_Raise _ _ _ e fs [ChatInvoke (build_messages lib data)]);
      [| by rewrite invoke_chat_run, Hchat].
    exists (Raise e), [ChatInvoke (build_messages lib data)].
    split_and!; [done | by left |]. by intros e' [= <-].
Qed.

(** X9: [extract_with_llm] never touches the file store; it calls the
    chat model exactly once, first, and runs the output-fixing parser at
    most once, after it and on the whole stripped response; a failure of
    the chat call itself is raised as it is, not wrapped, and without any
    repair attempt. *)
Theorem extract_with_llm_effects
    (lib : Codec) (svc : Services) (data : string) (fs : Run.store) :
  ∃ r tr,
    extract_with_llm lib svc data fs = (r, fs, tr)
    ∧ (tr = [ChatInvoke (build_messages lib data)]
       ∨ ∃ content,
           chat_invoke svc (build_messages lib data) = Ok content
           ∧ tr = [ChatInvoke (build_messages lib data);
                   FixingParse (strip_whitespace content)])
    ∧ (∀ e, chat_invoke svc (build_messages lib data) = Raise e →
            r = Raise e ∧ tr = [ChatInvoke (build_messages lib data)]).
Proof. apply extract_with_llm_run. Qed.

(** X10: when the first parse fails and the output-fixing parser returns
    a Listing for the whole stripped response, [extract_with_llm] returns
    that Listing's dict; the failure of the first parse leaves no trace in
    the result. *)
Theorem extract_with_llm_repaired
    (lib : Codec) (svc : Services) (data content : string) (fixed : Listings)
    (e : exn) (fs st : Run.store) (tr : list event) :
  chat_invoke svc (build_messages lib data) = Ok content →
  first_parse lib (strip_whitespace content) fs = (Raise e, st, tr) →
  fixing_parse svc (strip_whitespace content) = Ok fixed →
  extract_with_llm lib svc data fs
  = (Ok (Listings_dict fixed), fs,
     [ChatInvoke (build_messages lib data);
      FixingParse (strip_whitespace content)]).
Proof.
  intros Hchat Hfirst Hfix. unfold extract_with_llm.
  rewrite (bind_Ok _ _ _ content fs [ChatInvoke (build_messages lib data)]);
    [| by rewrite invoke_chat_run, Hchat].
  destruct (effect_free_first_parse lib (strip_whitespace content)) as [r Hr].
  specialize (Hr fs). rewrite Hfirst in Hr. injection Hr as <- -> ->.
  rewrite (try_except_Raise _ _ _ _ _ _ Hfirst).
  by rewrite repair_parse_run, Hfix.
Qed.

Lemma extract_with_llm_repaired_witness :
  extract_with_llm Example.lib Scenario.svc_repaired "# Shop A" ∅
  = (Ok (Listings_dict Example.two_items), ∅,
     [ChatInvoke (build_messages Example.lib "# Shop A");
      FixingParse (strip_whitespace Example.garbled_answer)]).
Proof.
  apply (extract_with_llm_repaired Example.lib Scenario.svc_repaired "# Shop A"
           Example.garbled_answer Example.two_items no_group ∅ ∅ []);
    vm_compute; reflexivity.
Defined.

(* ===================================================================== *)
(** ** More about the per-URL pipeline: the RawFetch stage                *)
(* ===================================================================== *)

Lemma process_url_of_try (lib : Codec) (svc : Services)
    (url output_folder : string) (fs : Run.store) :
  process_url lib svc url output_folder fs
  = match process_url_try lib svc url output_folder fs with
    | (Ok rows, fs', tr) => (Ok rows, fs', tr)
    | (Raise e, fs', tr) => (Ok [error_row url e], fs', tr)
    end.
Proof.
  unfold process_url, try_except.
  destruct (process_url_try lib svc url output_folder fs) as [[[rows|e] fs'] tr];
    [done |]. simpl. by rewrite app_nil_r.
Qed.

Lemma process_url_fetch_failure_run
    (lib : Codec) (svc : Services) (output_folder url : string)
    (fs : Run.store) (e : exn) :
  fs !! raw_path_of url output_folder = None →
  (scrape_markdown svc url fs).1.1 = Raise e →
  process_url lib svc url output_folder fs
  = (Ok [error_row url e], fs, [ScrapeUrl url]).
Proof.
  intros Hraw Hscrape.
  pose proof (load_or_scrape_miss svc url _ fs Hraw) as Hmiss.
  rewrite Hscrape in Hmiss.
  rewrite process_url_of_try. unfold process_url_try.
  by rewrite (bind_Raise _ _ _ _ _ _ Hmiss).
Qed.

(** X11: when the raw text is not cached and the fetch fails (the backend
    raises, or its result has no markdown), [process_url] gives the
    ErrorRow of that failure and does nothing else: no file is written, so
    the next run fetches again, and the structured-data artifact is not
    looked at even when it exists. *)
Theorem process_url_fetch_failure
    (lib : Codec) (svc : Services) (url output_folder : string)
    (fs : Run.store) (e : exn) :
  fs !! raw_path_of url output_folder = None →
  (scrape_markdown svc url fs).1.1 = Raise e →
  process_url lib svc url output_folder fs
  = (Ok [error_row url e], fs, [ScrapeUrl url]).
Proof. apply process_url_fetch_failure_run. Qed.

Lemma process_url_fetch_failure_witness :
  process_url Example.lib Example.svc Example.page_b "output" Example.cached_store
  = (Ok [error_row Example.page_b Example.refused], Example.cached_store,
     [ScrapeUrl Example.page_b]).
Proof.
  apply process_url_fetch_failure; vm_compute; reflexivity.
Defined.

(** X12: when the backend's result provides under [markdown] something
    that is not a string (its attribute is [None], say), [process_url]
    gives the ErrorRow of the [TypeError] of [f.write], but [open] has
    already created the raw-text artifact: it stays behind, empty, and
    from then on counts as the cached page, so the URL is not fetched
    again. *)
Theorem process_url_non_text_markdown
    (lib : Codec) (svc : Services) (url output_folder : string)
    (fs : Run.store) (v : value) :
  fs !! raw_path_of url output_folder = None →
  (scrape_markdown svc url fs).1.1 = Ok v →
  (∀ s, v ≠ VStr s) →
  process_url lib svc url output_folder fs
  = (Ok [error_row url (TypeError ("write() argument must be str, not "
                                   +:+ argument_name v))],
     <[raw_path_of url output_folder := EmptyString]> fs,
     [ScrapeUrl url; OpenForWrite (raw_path_of url output_folder)])
  ∧ ∀ svc',
      load_or_scrape svc' url (raw_path_of url output_folder)
        (<[raw_path_of url output_folder := EmptyString]> fs)
      = (Ok EmptyString, <[raw_path_of url output_folder := EmptyString]> fs,
         [ReadFile (raw_path_of url output_folder)]).
Proof.
  intros Hraw Hscrape Hv. split.
  - pose proof (load_or_scrape_miss svc url _ fs Hraw) as Hmiss.
    rewrite Hscrape in Hmiss.
    rewrite process_url_of_try. unfold process_url_try.
    destruct v; try (by rewrite (bind_Raise _ _ _ _ _ _ Hmiss)).
    by destruct (Hv s).
  - intros svc'. apply load_or_scrape_hit. apply lookup_insert_eq.
Qed.

Lemma process_url_non_text_markdown_witness :
  process_url Example.lib Scenario.svc_blank Example.page_a "output" ∅
  = (Ok [error_row Example.page_a
           (TypeError ("write() argument must be str, not " +:+ argument_name VNone))],
     <[raw_path_of Example.page_a "output" := EmptyString]> ∅,
     [ScrapeUrl Example.page_a; OpenForWrite (raw_path_of Example.page_a "output")])
  ∧ ∀ svc',
      load_or_scrape svc' Example.page_a (raw_path_of Example.page_a "output")
        (<[raw_path_of Example.page_a "output" := EmptyString]> ∅)
      = (Ok EmptyString, <[raw_path_of Example.page_a "output" := EmptyString]> ∅,
         [ReadFile (raw_path_of Example.page_a "output")]).
Proof.
  apply process_url_non_text_markdown; [reflexivity | reflexivity | done].
Defined.

(* ===================================================================== *)
(** ** More about the per-URL pipeline: a cached Listing                  *)
(* ===================================================================== *)

Lemma process_url_after_raw (lib : Codec) (svc : Services)
    (url output_folder : string) (fs fs1 : Run.store) raw_data t1 json_text r :
  load_or_scrape svc url (raw_path_of url output_folder) fs = (Ok raw_data, fs1, t1) →
  fs1 !! json_path_of url output_folder = Some json_text →
  (structured_data <- lift (json_loads lib json_text) ;;
   build_output structured_data) fs1 = (r, fs1, []) →
  process_url lib svc url output_folder fs
  = (Ok (match r with Ok rows => rows | Raise e => [error_row url e] end),
     fs1, t1 ++ [ReadFile (json_path_of url output_folder)]).
Proof.
  intros Hload Hjson Hr.
  rewrite process_url_of_try. unfold process_url_try.
  rewrite (bind_Ok _ _ _ _ _ _ Hload).
  pose proof (load_or_extract_hit lib svc url _ (excel_path_of url output_folder)
                raw_data _ fs1 Hjson) as Hhit.
  unfold Run.bind, lift in Hr.
  destruct (json_loads lib json_text) as [sd|e].
  - rewrite (bind_Ok _ _ _ _ _ _ Hhit).
    destruct (build_output sd fs1) as [[r' fs2] t2].
    simpl in Hr. injection Hr as -> -> ->.
    destruct r; simpl; by rewrite ?app_nil_r.
  - rewrite (bind_Raise _ _ _ _ _ _ Hhit). by injection Hr as <-.
Qed.

(** X13: a structured-data artifact that [json.load] rejects is never
    repaired: with both artifacts on disk, every run gives the ErrorRow of
    the decoding error, calls neither the backend nor the model, and
    leaves the broken file where it is. *)
Theorem process_url_corrupt_cache
    (lib : Codec) (svc : Services) (url output_folder raw_text json_text : string)
    (fs : Run.store) (e : exn) :
  fs !! raw_path_of url output_folder = Some raw_text →
  fs !! json_path_of url output_folder = Some json_text →
  json_loads lib json_text = Raise e →
  process_url lib svc url output_folder fs
  = (Ok [error_row url e], fs,
     [ReadFile (raw_path_of url output_folder);
      ReadFile (json_path_of url output_folder)]).
Proof.
  intros Hraw Hjson Hloads.
  rewrite (process_url_after_raw lib svc url output_folder fs fs raw_text _
             json_text (Raise e) (load_or_scrape_hit svc url _ _ fs Hraw) Hjson);
    [done |].
  unfold Run.bind, lift. by rewrite Hloads.
Qed.

Lemma process_url_corrupt_cache_witness :
  process_url Example.lib Example.svc Example.page_a "output" Scenario.corrupt_store
  = (Ok [error_row Example.page_a
           (Exn "JSONDecodeError" "Expecting value: line 1 column 1 (char 0)")],
     Scenario.corrupt_store,
     [ReadFile (raw_path_of Example.page_a "output");
      ReadFile (json_path_of Example.page_a "output")]).
Proof.
  apply (process_url_corrupt_cache Example.lib Example.svc Example.page_a "output"
           "# Shop A" "{not json"); vm_compute; reflexivity.
Defined.

Lemma enrich_complete (item row : value) (fs : Run.store) :
  enriched_from item row → enrich item fs = (Ok row, fs, []).
Proof.
  intros (u & d & l & Hu & Hd & Hl & ->).
  unfold enrich, Run.bind, lift, ret. by rewrite Hu, Hd, Hl.
Qed.

Lemma for_each_enrich_complete (seq rows : list value) (fs : Run.store) :
  Forall2 enriched_from seq rows → for_each enrich seq fs = (Ok rows, fs, []).
Proof.
  induction 1 as [|item row seq rows Hrow _ IH]; [done |].
  simpl. rewrite (bind_Ok _ _ _ _ _ _ (enrich_complete _ _ fs Hrow)).
  by rewrite (bind_Ok _ _ _ _ _ _ IH).
Qed.

Lemma for_each_enrich_first_failure (good rest : list value) (bad : value)
    (e : exn) (fs : Run.store) :
  Forall (λ item, ∃ row, enriched_from item row) good →
  enrich bad fs = (Raise e, fs, []) →
  for_each enrich (good ++ bad :: rest) fs = (Raise e, fs, []).
Proof.
  intros Hgood Hbad. induction Hgood as [|item good [row Hrow] _ IH].
  - simpl. by rewrite (bind_Raise _ _ _ _ _ _ Hbad).
  - simpl. rewrite (bind_Ok _ _ _ _ _ _ (enrich_complete _ _ fs Hrow)).
    by rewrite (bind_Raise _ _ _ _ _ _ IH).
Qed.

(** X14: with both artifacts on disk and a structured-data artifact
    whose [items] is a list of dicts that each have the keys [url],
    [product_description] and [product_link], [process_url] returns one
    row per item, in order, made of the values under these three keys
    (any other key of the item is dropped), the [url] being the one
    stored in the artifact. *)
Theorem process_url_cached_listing
    (lib : Codec) (svc : Services) (url output_folder raw_text json_text : string)
    (fs : Run.store) (structured_data : value) (its rows : list value) :
  fs !! raw_path_of url output_folder = Some raw_text →
  fs !! json_path_of url output_folder = Some json_text →
  json_loads lib json_text = Ok structured_data →
  getitem structured_data "items" = Ok (VList its) →
  Forall2 enriched_from its rows →
  process_url lib svc url output_folder fs
  = (Ok rows, fs,
     [ReadFile (raw_path_of url output_folder);
      ReadFile (json_path_of url output_folder)]).
Proof.
  intros Hraw Hjson Hloads Hits Hrows.
  rewrite (process_url_after_raw lib svc url output_folder fs fs raw_text _
             json_text (Ok rows) (load_or_scrape_hit svc url _ _ fs Hraw) Hjson);
    [done |].
  unfold Run.bind at 1, lift. rewrite Hloads.
  unfold build_output, Run.bind at 1, lift. rewrite Hits.
  unfold Run.bind at 1. simpl.
  by rewrite (for_each_enrich_complete _ _ fs Hrows).
Qed.

Lemma process_url_cached_listing_witness :
  process_url (Scenario.lib_with Scenario.good_listing) Example.svc_down
    Example.page_a "output" Scenario.store_with_cache
  = (Ok [VDict [("url", VStr Example.page_a);
                ("product_description", VStr "Mint Gum");
                ("product_link", VStr "https://a.com/p")];
         VDict [("url", VStr Example.page_a);
                ("product_description", VStr "Lemon Ice");
                ("product_link", VStr "https://a.com/p")]],
     Scenario.store_with_cache,
     [ReadFile (raw_path_of Example.page_a "output");
      ReadFile (json_path_of Example.page_a "output")]).
Proof.
  eapply (process_url_cached_listing (Scenario.lib_with Scenario.good_listing)
            Example.svc_down Example.page_a "output" "# Shop A" "cached").
  - vm_compute. reflexivity.
  - vm_compute. reflexivity.
  - reflexivity.
  - reflexivity.
  - repeat constructor; do 3 eexists; split_and!; reflexivity.
Defined.

(** X15: the Reduce stage is all or nothing: when the cached list of
    items holds, after any number of complete items, one item on which a
    lookup of [url], [product_description] or [product_link] raises, the
    rows of all items are dropped and the URL yields the single ErrorRow
    of that first failure. *)
Theorem process_url_one_bad_item
    (lib : Codec) (svc : Services) (url output_folder raw_text json_text : string)
    (fs : Run.store) (structured_data : value) (good rest : list value)
    (bad : value) (e : exn) :
  fs !! raw_path_of url output_folder = Some raw_text →
  fs !! json_path_of url output_folder = Some json_text →
  json_loads lib json_text = Ok structured_data →
  getitem structured_data "items" = Ok (VList (good ++ bad :: rest)) →
  Forall (λ item, ∃ row, enriched_from item row) good →
  enrich bad fs = (Raise e, fs, []) →
  process_url lib svc url output_folder fs
  = (Ok [error_row url e], fs,
     [ReadFile (raw_path_of url output_folder);
      ReadFile (json_path_of url output_folder)]).
Proof.
  intros Hraw Hjson Hloads Hits Hgood Hbad.
  rewrite (process_url_after_raw lib svc url output_folder fs fs raw_text _
             json_text (Raise e) (load_or_scrape_hit svc url _ _ fs Hraw) Hjson);
    [done |].
  unfold Run.bind at 1, lift. rewrite Hloads.
  unfold build_output, Run.bind at 1, lift. rewrite Hits.
  unfold Run.bind at 1. simpl.
  by rewrite (for_each_enrich_first_failure _ _ _ _ fs Hgood Hbad).
Qed.

Lemma process_url_one_bad_item_witness :
  process_url (Scenario.lib_with Scenario.mixed_listing) Example.svc_down
    Example.page_a "output" Scenario.store_with_cache
  = (Ok [error_row Example.page_a (KeyError "product_description")],
     Scenario.store_with_cache,
     [ReadFile (raw_path_of Example.page_a "output");
      ReadFile (json_path_of Example.page_a "output")]).
Proof.
  eapply (process_url_one_bad_item (Scenario.lib_with Scenario.mixed_listing)
            Example.svc_down Example.page_a "output" "# Shop A" "cached"
            Scenario.store_with_cache Scenario.mixed_listing
            [Scenario.good_item "Mint Gum"] [Scenario.good_item "Lemon Ice"]
            Scenario.bad_item).
  - vm_compute. reflexivity.
  - vm_compute. reflexivity.
  - reflexivity.
  - reflexivity.
  - repeat constructor. do 4 eexists; split_and!; reflexivity.
  - reflexivity.
Defined.

(* ===================================================================== *)
(** ** More about the per-URL pipeline: a fresh extraction                *)
(* ===================================================================== *)

Lemma raw_path_ne_excel_path (url output_folder : string) :
  raw_path_of url output_folder ≠ excel_path_of url output_folder.
Proof. intros H. by apply path_join_ext_inj in H. Qed.

Lemma load_or_scrape_Ok_cached (svc : Services) (url raw_path : string)
    (fs fs1 : Run.store) raw_data t1 :
  load_or_scrape svc url raw_path fs = (Ok raw_data, fs1, t1) →
  fs1 !! raw_path = Some raw_data.
Proof.
  destruct (fs !! raw_path) as [s|] eqn:Hraw.
  - rewrite (load_or_scrape_hit svc url _ _ fs Hraw). by intros [= <- <- _].
  - rewrite (load_or_scrape_miss svc url _ fs Hraw).
    destruct (scrape_markdown svc url fs).1.1 as [v|e]; [| done].
    destruct v; try done. intros [= <- <- _]. apply lookup_insert_eq.
Qed.

Section FreshListing.

Variable lib : Codec.
Variable svc : Services.
Variable url output_folder : string.

Lemma load_or_extract_fresh (raw_data : string) (listing : Listings)
    (fs1 : Run.store) (t2 : list event) :
  fs1 !! json_path_of url output_folder = None →
  extract_with_llm lib svc raw_data fs1 = (Ok (Listings_dict listing), fs1, t2) →
  load_or_extract lib svc url (json_path_of url output_folder)
    (excel_path_of url output_folder) raw_data fs1
  = (Ok (VDict [("items", VList (map (stamped_item url) (items listing)))]),
     <[excel_path_of url output_folder :=
         to_excel lib (VList (map (stamped_item url) (items listing)))]>
       (<[json_path_of url output_folder :=
            json_dumps lib
              (VDict [("items", VList (map (stamped_item url) (items listing)))])]>
          fs1),
     t2 ++ [OpenForWrite (json_path_of url output_folder);
            WriteFile (json_path_of url output_folder)
              (json_dumps lib
                 (VDict [("items", VList (map (stamped_item url) (items listing)))]));
            ToExcel (excel_path_of url output_folder)
              (VList (map (stamped_item url) (items listing)))]).
Proof.
  intros Hjson Hext. rewrite (load_or_extract_miss _ _ _ _ _ _ _ Hjson).
  rewrite (bind_Ok _ _ _ _ _ _ Hext).
  rewrite (bind_Ok _ _ _ _ _ _ (stamp_items_fresh url listing fs1)).
  unfold Run.bind, open_w, write_text, lift, dataframe_to_excel, ret.
  cbn [getitem dict_get String.eqb Ascii.eqb Bool.eqb app].
  by rewrite insert_insert_eq.
Qed.

Lemma process_url_fresh_run (fs fs1 : Run.store) raw_data t1 t2
    (listing : Listings) :
  load_or_scrape svc url (raw_path_of url output_folder) fs = (Ok raw_data, fs1, t1) →
  fs1 !! json_path_of url output_folder = None →
  extract_with_llm lib svc raw_data fs1 = (Ok (Listings_dict listing), fs1, t2) →
  process_url lib svc url output_folder fs
  = (Ok (match items listing with
         | [] => []
         | _ :: _ => [error_row url (KeyError "product_description")]
         end),
     <[excel_path_of url output_folder :=
         to_excel lib (VList (map (stamped_item url) (items listing)))]>
       (<[json_path_of url output_folder :=
            json_dumps lib
              (VDict [("items", VList (map (stamped_item url) (items listing)))])]>
          fs1),
     t1 ++ t2 ++ [OpenForWrite (json_path_of url output_folder);
                  WriteFile (json_path_of url output_folder)
                    (json_dumps lib
                       (VDict [("items",
                                VList (map (stamped_item url) (items listing)))]));
                  ToExcel (excel_path_of url output_folder)
                    (VList (map (stamped_item url) (items listing)))]).
Proof.
  intros Hload Hjson Hext.
  rewrite process_url_of_try. unfold process_url_try.
  rewrite (bind_Ok _ _ _ _ _ _ Hload).
  rewrite (bind_Ok _ _ _ _ _ _ (load_or_extract_fresh _ _ _ _ Hjson Hext)).
  rewrite build_output_fresh.
  destruct (items listing); simpl; by rewrite app_nil_r, <- ?app_assoc.
Qed.

End FreshListing.

(** X16: on a cold structured-data cache, when the model's answer
    validates into a Listing, [process_url] stamps every item with the
    source URL (after the four schema fields), writes the stamped Listing
    to the [.json] artifact and the stamped items to the [.xlsx] artifact,
    and only then reduces: the rows are empty for an empty Listing, and
    otherwise the single ErrorRow of [KeyError('product_description')],
    the artifacts staying on disk. *)
Theorem process_url_fresh_listing
    (lib : Codec) (svc : Services) (url output_folder raw_data : string)
    (fs fs1 : Run.store) (t1 t2 : list event) (listing : Listings) :
  load_or_scrape svc url (raw_path_of url output_folder) fs = (Ok raw_data, fs1, t1) →
  fs1 !! json_path_of url output_folder = None →
  extract_with_llm lib svc raw_data fs1 = (Ok (Listings_dict listing), fs1, t2) →
  process_url lib svc url output_folder fs
  = (Ok (match items listing with
         | [] => []
         | _ :: _ => [error_row url (KeyError "product_description")]
         end),
     <[excel_path_of url output_folder :=
         to_excel lib (VList (map (stamped_item url) (items listing)))]>
       (<[json_path_of url output_folder :=
            json_dumps lib
              (VDict [("items", VList (map (stamped_item url) (items listing)))])]>
          fs1),
     t1 ++ t2 ++ [OpenForWrite (json_path_of url output_folder);
                  WriteFile (json_path_of url output_folder)
                    (json_dumps lib
                       (VDict [("items",
                                VList (map (stamped_item url) (items listing)))]));
                  ToExcel (excel_path_of url output_folder)
                    (VList (map (stamped_item url) (items listing)))]).
Proof. apply process_url_fresh_run. Qed.

Lemma process_url_fresh_listing_witness :
  process_url Example.lib Example.svc Example.page_a "output" ∅
  = (Ok [error_row Example.page_a (KeyError "product_description")],
     <[excel_path_of Example.page_a "output" :=
         to_excel Example.lib
           (VList (map (stamped_item Example.page_a) (items Example.two_items)))]>
       (<[json_path_of Example.page_a "output" :=
            json_dumps Example.lib Scenario.stamped_listing]>
          (<[raw_path_of Example.page_a "output" := "# Shop A"]> ∅)),
     [ScrapeUrl Example.page_a;
      OpenForWrite (raw_path_of Example.page_a "output");
      WriteFile (raw_path_of Example.page_a "output") "# Shop A"]
     ++ [ChatInvoke (build_messages Example.lib "# Shop A")]
     ++ [OpenForWrite (json_path_of Example.page_a "output");
         WriteFile (json_path_of Example.page_a "output")
           (json_dumps Example.lib Scenario.stamped_listing);
         ToExcel (excel_path_of Example.page_a "output")
           (VList (map (stamped_item Example.page_a) (items Example.two_items)))]).
Proof.
  apply (process_url_fresh_listing Example.lib Example.svc Example.page_a "output"
           "# Shop A" ∅ (<[raw_path_of Example.page_a "output" := "# Shop A"]> ∅)
           [ScrapeUrl Example.page_a;
            OpenForWrite (raw_path_of Example.page_a "output");
            WriteFile (raw_path_of Example.page_a "output") "# Shop A"]
           [ChatInvoke (build_messages Example.lib "# Shop A")]
           Example.two_items);
    vm_compute; reflexivity.
Defined.

(** X17: a run that extracted a Listing afresh is reproduced by every
    later run from the files alone: provided [json.load] reads back what
    [json.dump] wrote for the stamped Listing, running [process_url] again
    on the store the first run left returns the rows of the first run,
    reads the two artifacts, writes nothing and calls neither the backend
    nor the model (so the [KeyError] row of a non-empty Listing comes back
    on every run). *)
Theorem process_url_rerun_after_fresh
    (lib : Codec) (svc svc' : Services) (url output_folder raw_data : string)
    (fs fs1 : Run.store) (t1 t2 : list event) (listing : Listings) :
  load_or_scrape svc url (raw_path_of url output_folder) fs = (Ok raw_data, fs1, t1) →
  fs1 !! json_path_of url output_folder = None →
  extract_with_llm lib svc raw_data fs1 = (Ok (Listings_dict listing), fs1, t2) →
  json_loads lib
    (json_dumps lib (VDict [("items", VList (map (stamped_item url) (items listing)))]))
  = Ok (VDict [("items", VList (map (stamped_item url) (items listing)))]) →
  process_url lib svc' url output_folder
    (process_url lib svc url output_folder fs).1.2
  = ((process_url lib svc url output_folder fs).1.1,
     (process_url lib svc url output_folder fs).1.2,
     [ReadFile (raw_path_of url output_folder);
      ReadFile (json_path_of url output_folder)]).
Proof.
  intros Hload Hjson Hext Hround.
  rewrite (process_url_fresh_run lib svc url output_folder fs fs1 raw_data t1 t2
             listing Hload Hjson Hext).
  cbn [fst snd].
  set (sd := VDict [("items", VList (map (stamped_item url) (items listing)))]) in *.
  set (fs2 := <[excel_path_of url output_folder := _]> _).
  assert (Hraw2 : fs2 !! raw_path_of url output_folder = Some raw_data).
  { unfold fs2. rewrite lookup_insert_ne by (apply not_eq_sym, raw_path_ne_excel_path).
    rewrite lookup_insert_ne by (apply not_eq_sym, raw_path_ne_json_path).
    by eapply load_or_scrape_Ok_cached. }
  assert (Hjson2 : fs2 !! json_path_of url output_folder = Some (json_dumps lib sd)).
  { unfold fs2. rewrite lookup_insert_ne by (apply not_eq_sym, json_path_ne_excel_path).
    apply lookup_insert_eq. }
  rewrite (process_url_after_raw lib svc' url output_folder fs2 fs2 raw_data _
             (json_dumps lib sd)
             (match items listing with
              | [] => Ok []
              | _ :: _ => Raise (KeyError "product_description")
              end)
             (load_or_scrape_hit svc' url _ _ fs2 Hraw2) Hjson2).
  - by destruct (items listing).
  - unfold Run.bind at 1, lift. rewrite Hround.
    unfold sd. rewrite build_output_fresh. by destruct (items listing).
Qed.

Lemma process_url_rerun_after_fresh_witness :
  process_url Scenario.lib_round_trip Example.svc_down Example.page_a "output"
    (process_url Scenario.lib_round_trip Example.svc Example.page_a "output" ∅).1.2
  = ((process_url Scenario.lib_round_trip Example.svc Example.page_a "output" ∅).1.1,
     (process_url Scenario.lib_round_trip Example.svc Example.page_a "output" ∅).1.2,
     [ReadFile (raw_path_of Example.page_a "output");
      ReadFile (json_path_of Example.page_a "output")]).
Proof.
  apply (process_url_rerun_after_fresh Scenario.lib_round_trip Example.svc
           Example.svc_down Example.page_a "output" "# Shop A" ∅
           (<[raw_path_of Example.page_a "output" := "# Shop A"]> ∅)
           [ScrapeUrl Example.page_a;
            OpenForWrite (raw_path_of Example.page_a "output");
            WriteFile (raw_path_of Example.page_a "output") "# Shop A"]
           [ChatInvoke (build_messages Scenario.lib_round_trip "# Shop A")]
           Example.two_items);
    vm_compute; reflexivity.
Defined.

(* ===================================================================== *)
(** ** What a run may touch: frames                                       *)
(* ===================================================================== *)

Section Frames.

Context {A B : Type}.

Lemma frames_weaken (P Q : string → Prop) (m : M A) :
  (∀ q, P q → Q q) → frames P m → frames Q m.
Proof.
  intros HPQ Hm fs r fs' tr Hrun. destruct (Hm fs r fs' tr Hrun) as [Hsame Hkeep].
  split; [| done]. intros q Hq. apply Hsame. intros HP. by apply Hq, HPQ.
Qed.

Lemma frames_unchanged (P : string → Prop) (m : M A) :
  (∀ fs r fs' tr, m fs = (r, fs', tr) → fs' = fs) → frames P m.
Proof. intros Hm fs r fs' tr Hrun. by rewrite (Hm fs r fs' tr Hrun). Qed.

Lemma frames_effect_free (P : string → Prop) (m : M A) :
  effect_free m → frames P m.
Proof.
  intros [r Hr]. apply frames_unchanged. intros fs r' fs' tr.
  rewrite Hr. by intros [= _ <- _].
Qed.

Lemma frames_bind (P : string → Prop) (m : M A) (k : A → M B) :
  frames P m → (∀ a, frames P (k a)) → frames P (Run.bind m k).
Proof.
  intros Hm Hk fs r fs' tr Hrun.
  apply bind_inv in Hrun as [(a & fs1 & t1 & t2 & Hm1 & Hk1 & _) | (e & Hm1 & _)].
  - destruct (Hm _ _ _ _ Hm1) as [Hsame1 Hkeep1].
    destruct (Hk a _ _ _ _ Hk1) as [Hsame2 Hkeep2].
    split; [| by auto]. intros q Hq. by rewrite (Hsame2 q Hq), (Hsame1 q Hq).
  - by apply (Hm _ _ _ _ Hm1).
Qed.

Lemma frames_try_except (P : string → Prop) (m : M A) (h : exn → M A) :
  frames P m → (∀ e, frames P (h e)) → frames P (try_except m h).
Proof.
  intros Hm Hh fs r fs' tr. unfold try_except.
  destruct (m fs) as [[[a|e] fs1] t1] eqn:Hm1.
  - intros [= <- <- <-]. by apply (Hm _ _ _ _ Hm1).
  - destruct (h e fs1) as [[r2 fs2] t2] eqn:Hh1. intros [= <- <- <-].
    destruct (Hm _ _ _ _ Hm1) as [Hsame1 Hkeep1].
    destruct (Hh e _ _ _ _ Hh1) as [Hsame2 Hkeep2].
    split; [| by auto]. intros q Hq. by rewrite (Hsame2 q Hq), (Hsame1 q Hq).
Qed.

End Frames.

Lemma frames_insert (P : string → Prop) (p s : string) (ev : event) :
  P p → frames P (λ fs : Run.store, (Ok (), <[p := s]> fs, [ev])).
Proof.
  intros Hp fs r fs' tr [= _ <- _]. split.
  - intros q Hq. apply lookup_insert_ne. by intros ->.
  - intros q Hq. destruct (decide (p = q)) as [->|Hne].
    + rewrite lookup_insert_eq. by eexists.
    + by rewrite lookup_insert_ne.
Qed.

Lemma scrape_markdown_store (svc : Services) (url : string) fs r fs' tr :
  scrape_markdown svc url fs = (r, fs', tr) → fs' = fs.
Proof. rewrite scrape_markdown_run. by intros [= _ <- _]. Qed.

Lemma extract_with_llm_store (lib : Codec) (svc : Services) (data : string)
    fs r fs' tr :
  extract_with_llm lib svc data fs = (r, fs', tr) → fs' = fs.
Proof.
  destruct (extract_with_llm_run lib svc data fs) as (r0 & tr0 & -> & _).
  by intros [= _ <- _].
Qed.

Section PipelineFrames.

Variable lib : Codec.
Variable svc : Services.

Lemma frames_load_or_scrape (url raw_path : string) :
  frames (eq raw_path) (load_or_scrape svc url raw_path).
Proof.
  unfold load_or_scrape.
  apply frames_bind; [by apply frames_unchanged; intros ???? [= _ <- _] |].
  intros [|].
  - apply frames_unchanged. intros fs r fs' tr. unfold read_text.
    destruct (fs !! raw_path); by intros [= _ <- _].
  - apply frames_bind; [apply frames_unchanged, scrape_markdown_store |].
    intros raw_data.
    apply frames_bind; [by apply frames_insert |]. intros _.
    destruct raw_data; try apply frames_effect_free, effect_free_raise.
    apply frames_bind; [by apply frames_insert |]. intros _.
    apply frames_effect_free, effect_free_ret.
Qed.

Lemma frames_load_or_extract (url json_path excel_path raw_data : string) :
  frames (λ q, q = json_path ∨ q = excel_path)
    (load_or_extract lib svc url json_path excel_path raw_data).
Proof.
  unfold load_or_extract.
  apply frames_bind; [by apply frames_unchanged; intros ???? [= _ <- _] |].
  intros [|].
  - apply frames_bind.
    + apply frames_unchanged. intros fs r fs' tr. unfold read_text.
      destruct (fs !! json_path); by intros [= _ <- _].
    + intros txt. apply frames_effect_free, effect_free_lift.
  - apply frames_bind; [apply frames_unchanged, extract_with_llm_store |].
    intros sd.
    apply frames_bind; [apply frames_effect_free, effect_free_stamp_items |].
    intros sd'.
    apply frames_bind; [apply frames_insert; by left |]. intros _.
    apply frames_bind; [apply frames_insert; by left |]. intros _.
    apply frames_bind; [apply frames_effect_free, effect_free_lift |]. intros its.
    apply frames_bind; [apply frames_insert; by right |]. intros _.
    apply frames_effect_free, effect_free_ret.
Qed.

Lemma frames_process_url (url output_folder : string) :
  frames (λ q, q ∈ artifact_paths url output_folder)
    (process_url lib svc url output_folder).
Proof.
  unfold process_url, process_url_try, artifact_paths.
  apply frames_try_except; [| intros e; apply frames_effect_free, effect_free_ret].
  apply frames_bind.
  { eapply frames_weaken; [| apply frames_load_or_scrape].
    intros q <-. apply list_elem_of_here. }
  intros raw_data. apply frames_bind.
  { eapply frames_weaken; [| apply frames_load_or_extract].
    intros q [-> | ->]; rewrite !elem_of_cons; tauto. }
  intros sd. apply frames_effect_free, effect_free_build_output.
Qed.

End PipelineFrames.

(** X18: [process_url] changes no file other than the three artifacts of
    its URL, and removes no file at all. *)
Theorem process_url_touches_own_artifacts
    (lib : Codec) (svc : Services) (url output_folder : string) (fs : Run.store) :
  (∀ q, q ∉ artifact_paths url output_folder →
        (process_url lib svc url output_folder fs).1.2 !! q = fs !! q)
  ∧ (∀ q, is_Some (fs !! q) →
          is_Some ((process_url lib svc url output_folder fs).1.2 !! q)).
Proof.
  destruct (process_url lib svc url output_folder fs) as [[r fs'] tr] eqn:Hrun.
  apply (frames_process_url lib svc url output_folder fs r fs' tr Hrun).
Qed.

Lemma process_url_touches_own_artifacts_witness :
  (process_url Example.lib Example.svc Example.page_a "output"
     {[ "output/summary.xlsx" := "old" ]}).1.2 !! "output/summary.xlsx"
  = Some "old".
Proof.
  rewrite (proj1 (process_url_touches_own_artifacts Example.lib Example.svc
                    Example.page_a "output" {[ "output/summary.xlsx" := "old" ]}));
    [reflexivity |].
  vm_compute. intros H.
  repeat (apply elem_of_cons in H as [H|H]; [discriminate H |]).
  by apply elem_of_nil in H.
Defined.

(** X19: cached artifacts are never rewritten: a raw-text artifact that
    exists before [process_url] has the same content after it, and so
    has a structured-data artifact, whatever happens in between. *)
Theorem process_url_keeps_cached_artifacts
    (lib : Codec) (svc : Services) (url output_folder : string) (fs : Run.store) :
  (∀ raw_text, fs !! raw_path_of url output_folder = Some raw_text →
     (process_url lib svc url output_folder fs).1.2 !! raw_path_of url output_folder
     = Some raw_text)
  ∧ (∀ json_text, fs !! json_path_of url output_folder = Some json_text →
       (process_url lib svc url output_folder fs).1.2 !! json_path_of url output_folder
       = Some json_text).
Proof.
  rewrite process_url_of_try.
  assert (Hstore : ∀ r fs' tr,
    process_url_try lib svc url output_folder fs = (r, fs', tr) →
    (∀ raw_text, fs !! raw_path_of url output_folder = Some raw_text →
                 fs' !! raw_path_of url output_folder = Some raw_text)
    ∧ (∀ json_text, fs !! json_path_of url output_folder = Some json_text →
                    fs' !! json_path_of url output_folder = Some json_text)).
  { intros r fs' tr Htry. unfold process_url_try in Htry.
    assert (Hjson1 : ∀ r1 fs1 t1,
      load_or_scrape svc url (raw_path_of url output_folder) fs = (r1, fs1, t1) →
      fs1 !! json_path_of url output_folder = fs !! json_path_of url output_folder).
    { intros r1 fs1 t1 H1.
      apply (proj1 (frames_load_or_scrape svc url _ fs r1 fs1 t1 H1)).
      apply raw_path_ne_json_path. }
    assert (Hraw1 : ∀ raw_text r1 fs1 t1,
      fs !! raw_path_of url output_folder = Some raw_text →
      load_or_scrape svc url (raw_path_of url output_folder) fs = (r1, fs1, t1) →
      fs1 = fs).
    { intros raw_text r1 fs1 t1 Hraw.
      rewrite (load_or_scrape_hit svc url _ _ fs Hraw). by intros [= _ <- _]. }
    apply bind_inv in Htry
      as [(raw_data & fs1 & t1 & t2 & H1 & Htry & _) | (e & H1 & _)].
    2:{ split; [intros raw_text Hraw; by rewrite (Hraw1 _ _ _ _ Hraw H1) |].
        intros json_text Hjson. by rewrite (Hjson1 _ _ _ H1). }
    assert (Hstage2 : ∀ r2 fs2 t3,
      load_or_extract lib svc url (json_path_of url output_folder)
        (excel_path_of url output_folder) raw_data fs1 = (r2, fs2, t3) →
      (∀ raw_text, fs !! raw_path_of url output_folder = Some raw_text →
                   fs2 !! raw_path_of url output_folder = Some raw_text)
      ∧ (∀ json_text, fs !! json_path_of url output_folder = Some json_text →
                      fs2 !! json_path_of url output_folder = Some json_text)).
    { intros r2 fs2 t3 H2. split.
      - intros raw_text Hraw. rewrite (Hraw1 _ _ _ _ Hraw H1) in H2.
        rewrite (proj1 (frames_load_or_extract lib svc url _ _ _ fs r2 fs2 t3 H2));
          [done |].
        intros [Heq | Heq];
          [by apply raw_path_ne_json_path in Heq
          | by apply raw_path_ne_excel_path in Heq].
      - intros json_text Hjson. rewrite <- (Hjson1 _ _ _ H1) in Hjson.
        rewrite (load_or_extract_hit lib svc url _ _ _ _ fs1 Hjson) in H2.
        by injection H2 as _ <- _. }
    apply bind_inv in Htry
      as [(sd & fs2 & t3 & t4 & H2 & H3 & _) | (e & H2 & _)].
    - destruct (effect_free_build_output sd) as [r3 Hr3].
      rewrite Hr3 in H3. injection H3 as _ <- _. by apply (Hstage2 _ _ _ H2).
    - by apply (Hstage2 _ _ _ H2). }
  destruct (process_url_try lib svc url output_folder fs) as [[[rows|e] fs'] tr];
    by apply (Hstore _ _ _ eq_refl).
Qed.

Lemma process_url_keeps_cached_artifacts_witness :
  (process_url Example.lib Example.svc Example.page_a "output"
     Example.json_only_store).1.2 !! json_path_of Example.page_a "output"
  = Some (Example.dumps Example.cached_listing).
Proof.
  apply (proj2 (process_url_keeps_cached_artifacts Example.lib Example.svc
                  Example.page_a "output" Example.json_only_store)).
  vm_compute. reflexivity.
Defined.

(* ===================================================================== *)
(** ** What a run may cost: calls of the backend and of the model         *)
(* ===================================================================== *)

Lemma fetches_app (t1 t2 : list event) :
  fetches (t1 ++ t2) = fetches t1 + fetches t2.
Proof. unfold fetches. by rewrite List.filter_app, length_app. Qed.

Lemma llm_calls_app (t1 t2 : list event) :
  llm_calls (t1 ++ t2) = llm_calls t1 + llm_calls t2.
Proof. unfold llm_calls. by rewrite List.filter_app, length_app. Qed.

Section Costs.

Context {A B : Type}.

Lemma cost_le_weaken (f l f' l' : nat) (m : M A) :
  f ≤ f' → l ≤ l' → cost_le f l m → cost_le f' l' m.
Proof.
  intros Hf Hl Hm fs r fs' tr Hrun. destruct (Hm fs r fs' tr Hrun). lia.
Qed.

Lemma cost_le_effect_free (m : M A) : effect_free m → cost_le 0 0 m.
Proof.
  intros [r Hr] fs r' fs' tr. rewrite Hr. by intros [= _ _ <-].
Qed.

Lemma cost_le_bind (f1 l1 f2 l2 : nat) (m : M A) (k : A → M B) :
  cost_le f1 l1 m → (∀ a, cost_le f2 l2 (k a)) →
  cost_le (f1 + f2) (l1 + l2) (Run.bind m k).
Proof.
  intros Hm Hk fs r fs' tr Hrun.
  apply bind_inv in Hrun as [(a & fs1 & t1 & t2 & Hm1 & Hk1 & ->) | (e & Hm1 & _)].
  - destruct (Hm _ _ _ _ Hm1), (Hk a _ _ _ _ Hk1).
    rewrite fetches_app, llm_calls_app. lia.
  - destruct (Hm _ _ _ _ Hm1). lia.
Qed.

Lemma cost_le_try_except (f1 l1 f2 l2 : nat) (m : M A) (h : exn → M A) :
  cost_le f1 l1 m → (∀ e, cost_le f2 l2 (h e)) →
  cost_le (f1 + f2) (l1 + l2) (try_except m h).
Proof.
  intros Hm Hh fs r fs' tr. unfold try_except.
  destruct (m fs) as [[[a|e] fs1] t1] eqn:Hm1.
  - intros [= <- <- <-]. destruct (Hm _ _ _ _ Hm1). lia.
  - destruct (h e fs1) as [[r2 fs2] t2] eqn:Hh1. intros [= <- <- <-].
    destruct (Hm _ _ _ _ Hm1), (Hh e _ _ _ _ Hh1).
    rewrite fetches_app, llm_calls_app. lia.
Qed.

End Costs.

Section PipelineCosts.

Variable lib : Codec.
Variable svc : Services.

Lemma cost_le_path_exists (path : string) : cost_le 0 0 (path_exists path).
Proof. by intros fs r fs' tr [= _ _ <-]. Qed.

Lemma cost_le_read_text (path : string) : cost_le 0 0 (read_text path).
Proof.
  intros fs r fs' tr. unfold read_text.
  destruct (fs !! path); by intros [= _ _ <-].
Qed.

Lemma cost_le_open_w (path : string) : cost_le 0 0 (open_w path).
Proof. by intros fs r fs' tr [= _ _ <-]. Qed.

Lemma cost_le_write_text (path s : string) : cost_le 0 0 (write_text path s).
Proof. by intros fs r fs' tr [= _ _ <-]. Qed.

Lemma cost_le_dataframe_to_excel (path : string) (data : value) :
  cost_le 0 0 (dataframe_to_excel lib path data).
Proof. by intros fs r fs' tr [= _ _ <-]. Qed.

Lemma cost_le_scrape_markdown (url : string) : cost_le 1 0 (scrape_markdown svc url).
Proof.
  intros fs r fs' tr. rewrite scrape_markdown_run. intros [= _ _ <-].
  unfold fetches, llm_calls. simpl. lia.
Qed.

Lemma cost_le_extract_with_llm (data : string) :
  cost_le 0 2 (extract_with_llm lib svc data).
Proof.
  intros fs r fs' tr Hrun.
  destruct (extract_with_llm_run lib svc data fs)
    as (r0 & tr0 & Hrun0 & [-> | (content & _ & ->)] & _);
    rewrite Hrun0 in Hrun; injection Hrun as _ _ <-;
    unfold fetches, llm_calls; simpl; lia.
Qed.

Lemma cost_le_load_or_scrape (url raw_path : string) :
  cost_le 1 0 (load_or_scrape svc url raw_path).
Proof.
  unfold load_or_scrape.
  apply (cost_le_bind 0 0 1 0); [apply cost_le_path_exists |]. intros [|].
  - eapply cost_le_weaken; [| | apply cost_le_read_text]; lia.
  - apply (cost_le_bind 1 0 0 0); [apply cost_le_scrape_markdown |]. intros raw_data.
    apply (cost_le_bind 0 0 0 0); [apply cost_le_open_w |]. intros _.
    destruct raw_data; try apply cost_le_effect_free, effect_free_raise.
    apply (cost_le_bind 0 0 0 0); [apply cost_le_write_text |]. intros _.
    apply cost_le_effect_free, effect_free_ret.
Qed.

Lemma cost_le_load_or_extract (url json_path excel_path raw_data : string) :
  cost_le 0 2 (load_or_extract lib svc url json_path excel_path raw_data).
Proof.
  unfold load_or_extract.
  apply (cost_le_bind 0 0 0 2); [apply cost_le_path_exists |]. intros [|].
  - eapply cost_le_weaken with (f := 0 + 0) (l := 0 + 0); [lia | lia |].
    apply cost_le_bind; [apply cost_le_read_text |]. intros txt.
    apply cost_le_effect_free, effect_free_lift.
  - apply (cost_le_bind 0 2 0 0); [apply cost_le_extract_with_llm |]. intros sd.
    apply (cost_le_bind 0 0 0 0);
      [apply cost_le_effect_free, effect_free_stamp_items |]. intros sd'.
    apply (cost_le_bind 0 0 0 0); [apply cost_le_open_w |]. intros _.
    apply (cost_le_bind 0 0 0 0); [apply cost_le_write_text |]. intros _.
    apply (cost_le_bind 0 0 0 0); [apply cost_le_effect_free, effect_free_lift |].
    intros its.
    apply (cost_le_bind 0 0 0 0); [apply cost_le_dataframe_to_excel |]. intros _.
    apply cost_le_effect_free, effect_free_ret.
Qed.

Lemma cost_le_process_url (url output_folder : string) :
  cost_le 1 2 (process_url lib svc url output_folder).
Proof.
  unfold process_url, process_url_try.
  apply (cost_le_try_except 1 2 0 0);
    [| intros e; apply cost_le_effect_free, effect_free_ret].
  apply (cost_le_bind 1 0 0 2); [apply cost_le_load_or_scrape |]. intros raw_data.
  apply (cost_le_bind 0 2 0 0); [apply cost_le_load_or_extract |]. intros sd.
  apply cost_le_effect_free, effect_free_build_output.
Qed.

Lemma cost_le_batch_loop (url_list : list string) (output_folder : string) :
  ∀ all_results,
    cost_le (length url_list) (2 * length url_list)
      (batch_loop lib svc url_list output_folder all_results).
Proof.
  induction url_list as [|url rest IH]; intros all_results.
  - apply cost_le_effect_free, effect_free_ret.
  - simpl batch_loop.
    eapply cost_le_weaken with (f := 1 + length rest) (l := 2 + 2 * length rest);
      [simpl; lia | simpl; lia |].
    apply cost_le_bind; [apply cost_le_process_url |]. intros result. apply IH.
Qed.

Lemma cost_le_run_batch (url_list : list string) (output_folder summary_path : string) :
  cost_le (length url_list) (2 * length url_list)
    (run_batch lib svc url_list output_folder summary_path).
Proof.
  unfold run_batch, ensure_output_dir.
  eapply cost_le_weaken
    with (f := 0 + (length url_list + 0)) (l := 0 + (2 * length url_list + 0));
    [lia | lia |].
  apply cost_le_bind; [by intros fs r fs' tr [= _ _ <-] |]. intros _.
  apply cost_le_bind; [apply cost_le_batch_loop |]. intros all_results.
  apply cost_le_dataframe_to_excel.
Qed.

End PipelineCosts.

(** X20: whatever the backend and the model answer, one [process_url]
    calls the scraping backend at most once and the model at most twice
    (the chat invocation and one run of the output-fixing parser); a batch
    of [n] URLs therefore costs at most [n] fetches and [2 n] model
    calls: nothing is retried. *)
Theorem run_batch_cost
    (lib : Codec) (svc : Services) (url_list : list string)
    (output_folder summary_path : string) (fs : Run.store) :
  (∀ url, fetches (process_url lib svc url output_folder fs).2 ≤ 1
          ∧ llm_calls (process_url lib svc url output_folder fs).2 ≤ 2)
  ∧ fetches (run_batch lib svc url_list output_folder summary_path fs).2
    ≤ length url_list
  ∧ llm_calls (run_batch lib svc url_list output_folder summary_path fs).2
    ≤ 2 * length url_list.
Proof.
  split.
  - intros url.
    destruct (process_url lib svc url output_folder fs) as [[r fs'] tr] eqn:Hrun.
    apply (cost_le_process_url lib svc url output_folder fs r fs' tr Hrun).
  - destruct (run_batch lib svc url_list output_folder summary_path fs)
      as [[r fs'] tr] eqn:Hrun.
    apply (cost_le_run_batch lib svc url_list output_folder summary_path
             fs r fs' tr Hrun).
Qed.

(** X21: each cache alone saves its own call: when the raw-text artifact
    exists [process_url] does not call the scraping backend, and when the
    structured-data artifact exists it does not call the model, whether or
    not the other artifact is there and whatever else happens. *)
Theorem process_url_cache_saves_calls
    (lib : Codec) (svc : Services) (url output_folder : string) (fs : Run.store) :
  (is_Some (fs !! raw_path_of url output_folder) →
   fetches (process_url lib svc url output_folder fs).2 = 0)
  ∧ (is_Some (fs !! json_path_of url output_folder) →
     llm_calls (process_url lib svc url output_folder fs).2 = 0).
Proof.
  rewrite process_url_of_try.
  assert (Hlog : ∀ r fs' tr,
    process_url_try lib svc url output_folder fs = (r, fs', tr) →
    (is_Some (fs !! raw_path_of url output_folder) → fetches tr = 0)
    ∧ (is_Some (fs !! json_path_of url output_folder) → llm_calls tr = 0)).
  { intros r fs' tr Htry. unfold process_url_try in Htry.
    apply bind_inv in Htry
      as [(raw_data & fs1 & t1 & t2 & H1 & Htry & ->) | (e & H1 & _)].
    2:{ split.
        - intros [s Hraw]. rewrite (load_or_scrape_hit svc url _ _ fs Hraw) in H1.
          by injection H1 as _ _ <-.
        - intros _. destruct (cost_le_load_or_scrape svc url _ _ _ _ _ H1). lia. }
    assert (Hrest : fetches t2 = 0
                    ∧ (is_Some (fs1 !! json_path_of url output_folder) →
                       llm_calls t2 = 0)).
    { apply bind_inv in Htry
        as [(sd & fs2 & t3 & t4 & H2 & H3 & ->) | (e & H2 & _)].
      - destruct (effect_free_build_output sd) as [r3 Hr3].
        rewrite Hr3 in H3. injection H3 as _ _ <-. rewrite app_nil_r.
        split; [destruct (cost_le_load_or_extract lib svc _ _ _ _ _ _ _ _ H2); lia |].
        intros [j Hjson].
        rewrite (load_or_extract_hit lib svc url _ _ _ _ fs1 Hjson) in H2.
        by injection H2 as _ _ <-.
      - split; [destruct (cost_le_load_or_extract lib svc _ _ _ _ _ _ _ _ H2); lia |].
        intros [j Hjson].
        rewrite (load_or_extract_hit lib svc url _ _ _ _ fs1 Hjson) in H2.
        by injection H2 as _ _ <-. }
    destruct Hrest as [Hf2 Hl2]. rewrite fetches_app, llm_calls_app. split.
    - intros [s Hraw]. rewrite (load_or_scrape_hit svc url _ _ fs Hraw) in H1.
      injection H1 as _ _ <-. by rewrite Hf2.
    - intros Hjson.
      destruct (cost_le_load_or_scrape svc url _ _ _ _ _ H1) as [_ Hl1].
      rewrite Hl2; [lia |].
      rewrite (proj1 (frames_load_or_scrape svc url _ fs _ fs1 t1 H1)); [done |].
      apply raw_path_ne_json_path. }
  destruct (process_url_try lib svc url output_folder fs) as [[[rows|e] fs'] tr];
    by apply (Hlog _ _ _ eq_refl).
Qed.

Lemma process_url_cache_saves_calls_witness :
  llm_calls (process_url Example.lib Example.svc Example.page_a "output"
               Example.json_only_store).2 = 0.
Proof.
  apply (proj2 (process_url_cache_saves_calls Example.lib Example.svc
                  Example.page_a "output" Example.json_only_store)).
  by eexists.
Defined.

(* ===================================================================== *)
(** ** More about the batch runner                                        *)
(* ===================================================================== *)

Lemma bind_assoc {A B C} (m : M A) (k : A → M B) (h : B → M C) (fs : Run.store) :
  Run.bind (Run.bind m k) h fs = Run.bind m (λ a, Run.bind (k a) h) fs.
Proof.
  unfold Run.bind. destruct (m fs) as [[[a|e] fs1] t1]; [| done].
  destruct (k a fs1) as [[[b|e] fs2] t2]; [| done].
  destruct (h b fs2) as [[r fs3] t3]. by rewrite app_assoc.
Qed.

Lemma bind_ext {A B} (m : M A) (k k' : A → M B) (fs : Run.store) :
  (∀ a fs1, k a fs1 = k' a fs1) → Run.bind m k fs = Run.bind m k' fs.
Proof.
  intros Hk. unfold Run.bind. destruct (m fs) as [[[a|e] fs1] t1]; [| done].
  by rewrite Hk.
Qed.

Section BatchMore.

Variable lib : Codec.
Variable svc : Services.
Variable output_folder : string.

Lemma batch_loop_app_run (urls1 urls2 : list string) :
  ∀ (all_results : list value) (fs : Run.store),
    batch_loop lib svc (urls1 ++ urls2) output_folder all_results fs
    = (partial <- batch_loop lib svc urls1 output_folder all_results ;;
       batch_loop lib svc urls2 output_folder partial) fs.
Proof.
  induction urls1 as [|url rest IH]; intros all_results fs.
  - simpl. unfold Run.bind, ret.
    by destruct (batch_loop lib svc urls2 output_folder all_results fs) as [[? ?] ?].
  - simpl. rewrite bind_assoc. apply bind_ext. intros result fs1. apply IH.
Qed.


Lemma frames_batch_loop (summary_path : string) (url_list : list string) :
  ∀ all_results,
    frames (batch_paths url_list output_folder summary_path)
      (batch_loop lib svc url_list output_folder all_results).
Proof.
  induction url_list as [|url rest IH]; intros all_results.
  - apply frames_effect_free, effect_free_ret.
  - simpl. apply frames_bind.
    + eapply frames_weaken; [| apply frames_process_url].
      intros q Hq. right. exists url. split; [apply list_elem_of_here | done].
    + intros result. eapply frames_weaken; [| apply IH].
      intros q [-> | (u & Hu & Hq)]; [by left |].
      right. exists u. split; [by apply list_elem_of_further | done].
Qed.

Lemma summary_row_error (url : string) (e : exn) : summary_row (error_row url e).
Proof. by eexists _, _, _. Qed.

Lemma sequentially_summary_rows url_list fs rowss fs' tr :
  sequentially lib svc output_folder url_list fs rowss fs' tr →
  Forall summary_row (concat rowss).
Proof.
  induction 1 as [|url rest fs rows fs1 t1 rowss fs2 t2 Hrun _ IH]; [constructor |].
  simpl. apply Forall_app. split; [| done].
  destruct (process_url_outcome lib svc url output_folder fs)
    as (rows' & fs1' & t1' & Hrun' & Hshape).
  rewrite Hrun in Hrun'. injection Hrun' as <- <- <-.
  destruct Hshape as [[e ->] | (seq & _ & Hrows)].
  - repeat constructor. apply summary_row_error.
  - clear Hrun. induction Hrows as [|item row seq rows (u & d & l & _ & _ & _ & ->) _ IHr];
      constructor; [by eexists _, _, _ | done].
Qed.

End BatchMore.

(** X22: the loop of [run_batch] composes: handling [urls1 ++ urls2] is
    handling [urls1] and then [urls2] from the store and with the rows
    that [urls1] left, so a URL's rows and files depend only on the URLs
    before it. *)
Theorem batch_loop_app
    (lib : Codec) (svc : Services) (output_folder : string)
    (urls1 urls2 : list string) (all_results : list value) (fs : Run.store) :
  batch_loop lib svc (urls1 ++ urls2) output_folder all_results fs
  = (partial <- batch_loop lib svc urls1 output_folder all_results ;;
     batch_loop lib svc urls2 output_folder partial) fs.
Proof. apply batch_loop_app_run. Qed.



Lemma frames_run_batch (lib : Codec) (svc : Services) (url_list : list string)
    (output_folder summary_path : string) :
  frames (batch_paths url_list output_folder summary_path)
    (run_batch lib svc url_list output_folder summary_path).
Proof.
  unfold run_batch, ensure_output_dir.
  apply frames_bind; [by apply frames_unchanged; intros ???? [= _ <- _] |].
  intros _. apply frames_bind; [apply frames_batch_loop |].
  intros all_results. apply frames_insert. by left.
Qed.

(** X24: [run_batch] changes no file other than the summary and the
    artifacts of the URLs of the batch, and removes no file: artifacts of
    other URLs and anything else in the output folder stay as they are. *)
Theorem run_batch_touches_own_files
    (lib : Codec) (svc : Services) (url_list : list string)
    (output_folder summary_path : string) (fs : Run.store) :
  (∀ q, ¬ batch_paths url_list output_folder summary_path q →
        (run_batch lib svc url_list output_folder summary_path fs).1.2 !! q
        = fs !! q)
  ∧ (∀ q, is_Some (fs !! q) →
          is_Some ((run_batch lib svc url_list output_folder summary_path fs).1.2
                   !! q)).
Proof.
  destruct (run_batch lib svc url_list output_folder summary_path fs)
    as [[r fs'] tr] eqn:Hrun.
  apply (frames_run_batch lib svc url_list output_folder summary_path
           fs r fs' tr Hrun).
Qed.

Lemma run_batch_touches_own_files_witness :
  (run_batch Example.lib Example.svc [Example.page_a] "output" "output/summary.xlsx"
     {[ "output/https___b_com.md" := "# Shop B" ]}).1.2 !! "output/https___b_com.md"
  = Some "# Shop B".
Proof.
  rewrite (proj1 (run_batch_touches_own_files Example.lib Example.svc
                    [Example.page_a] "output" "output/summary.xlsx"
                    {[ "output/https___b_com.md" := "# Shop B" ]}));
    [reflexivity |].
  intros [H | (url & Hurl & H)]; [discriminate H |].
  apply elem_of_cons in Hurl as [-> | Hurl]; [| by apply elem_of_nil in Hurl].
  vm_compute in H.
  repeat (apply elem_of_cons in H as [H|H]; [discriminate H |]).
  by apply elem_of_nil in H.
Defined.

(** X25: every row [run_batch] writes to the summary has exactly the
    three columns [url], [product_description], [product_link], in this
    order, whether it comes from a Listing item or from a failure. *)
Theorem run_batch_summary_rows
    (lib : Codec) (svc : Services) (url_list : list string)
    (output_folder summary_path : string) (fs : Run.store) :
  ∃ rows,
    last (run_batch lib svc url_list output_folder summary_path fs).2
    = Some (ToExcel summary_path (VList rows))
    ∧ Forall summary_row rows.
Proof.
  destruct (batch_loop_sequential lib svc output_folder url_list [] fs)
    as (rowss & fs' & tr & Hseq & Hloop).
  exists (concat rowss). split.
  - unfold run_batch, ensure_output_dir, emit, dataframe_to_excel.
    unfold Run.bind at 1. unfold Run.bind at 1. rewrite Hloop.
    cbn [snd app]. rewrite last_cons, last_snoc. done.
  - by eapply sequentially_summary_rows.
Qed.

(** The entry point is [run_batch] on three URLs whose artifacts are nine
    different files, none of them the summary. *)
Example main_paths_distinct :
  NoDup (default_summary_path
           :: concat (map (λ url, artifact_paths url default_output_folder) urls)).
Proof.
  vm_compute. apply NoDup_ListNoDup. repeat constructor; simpl; intuition discriminate.
Qed.

(** The entry point costs at most three fetches and six model calls. *)
Example main_cost (lib : Codec) (svc : Services) (fs : Run.store) :
  fetches (main lib svc fs).2 ≤ 3 ∧ llm_calls (main lib svc fs).2 ≤ 6.
Proof.
  unfold main.
  destruct (run_batch lib svc urls default_output_folder default_summary_path fs)
    as [[r fs'] tr] eqn:Hrun.
  apply (cost_le_run_batch lib svc urls default_output_folder default_summary_path
           fs r fs' tr Hrun).
Qed.
